(** * Rental inventory backend: rental lifecycle, payment ledger,
      financial summary and role-based redaction

    Shallow embedding of the Express/Prisma route handlers of
    [rental-system-backend/src/routes] (rentals, finances, items, customers,
    maintenance, dashboard).

    Conventions of the embedding.
    - The relational store is a record of finite maps keyed by the TEXT
      primary keys.  A handler is a function [DB -> DB * Response.t].
    - [prisma.$transaction] is the error/state monad [Tx]: an exception
      thrown inside the callback rolls the store back.
    - Money columns (DOUBLE PRECISION in the schema) are exact integers
      counted in an arbitrary fixed fraction of the currency unit; the
      rounding of IEEE doubles is abstracted away.
    - Dates are epoch milliseconds, as [Date.prototype.valueOf] gives them;
      request bodies carry dates already parsed.  [new Date()] is the
      parameter [now], a generated primary key is the parameter [newId].
    - JSON payloads are values of [json]; an object is an association list
      in property order, so that object destructuring with a rest pattern
      is the removal of the named keys. *)

From Stdlib Require Import ZArith QArith Lia.
From stdpp Require Import gmap strings list sorting pretty.

Open Scope Z_scope.

(** ** Enumerations of the schema (prisma/migrations/.../migration.sql) *)

Inductive UserRole := ADMIN | STAFF.
Inductive ItemStatus := AVAILABLE | RENTED | MAINTENANCE | RETIRED.
Inductive RentalStatus := PENDING | ACTIVE | COMPLETED | CANCELLED | OVERDUE.
Inductive PaymentStatus := UNPAID | PARTIAL | PAID | REFUNDED.
Inductive PaymentMethod := CASH | CARD | BANK_TRANSFER | MOBILE_MONEY.
Inductive MaintenanceStatus := MAINT_PENDING | MAINT_IN_PROGRESS | MAINT_COMPLETED.

#[global] Instance UserRole_eq_dec : EqDecision UserRole.
Proof. solve_decision. Defined.
#[global] Instance ItemStatus_eq_dec : EqDecision ItemStatus.
Proof. solve_decision. Defined.
#[global] Instance RentalStatus_eq_dec : EqDecision RentalStatus.
Proof. solve_decision. Defined.
#[global] Instance PaymentStatus_eq_dec : EqDecision PaymentStatus.
Proof. solve_decision. Defined.
#[global] Instance PaymentMethod_eq_dec : EqDecision PaymentMethod.
Proof. solve_decision. Defined.
#[global] Instance MaintenanceStatus_eq_dec : EqDecision MaintenanceStatus.
Proof. solve_decision. Defined.

Definition UserRole_str (r : UserRole) : string :=
  match r with ADMIN => "ADMIN" | STAFF => "STAFF" end.
Definition ItemStatus_str (s : ItemStatus) : string :=
  match s with
  | AVAILABLE => "AVAILABLE" | RENTED => "RENTED"
  | MAINTENANCE => "MAINTENANCE" | RETIRED => "RETIRED"
  end.
Definition RentalStatus_str (s : RentalStatus) : string :=
  match s with
  | PENDING => "PENDING" | ACTIVE => "ACTIVE" | COMPLETED => "COMPLETED"
  | CANCELLED => "CANCELLED" | OVERDUE => "OVERDUE"
  end.
Definition PaymentStatus_str (s : PaymentStatus) : string :=
  match s with
  | UNPAID => "UNPAID" | PARTIAL => "PARTIAL" | PAID => "PAID"
  | REFUNDED => "REFUNDED"
  end.
Definition PaymentMethod_str (m : PaymentMethod) : string :=
  match m with
  | CASH => "CASH" | CARD => "CARD" | BANK_TRANSFER => "BANK_TRANSFER"
  | MOBILE_MONEY => "MOBILE_MONEY"
  end.
Definition MaintenanceStatus_str (s : MaintenanceStatus) : string :=
  match s with
  | MAINT_PENDING => "PENDING" | MAINT_IN_PROGRESS => "IN_PROGRESS"
  | MAINT_COMPLETED => "COMPLETED"
  end.

(** ** Rows of the tables

    A table maps the primary key [id] to the remaining columns of the row, so
    the [id] column of a stored row is its key.  Columns that no modelled
    handler reads or writes (descriptions, serial numbers, image URLs,
    [updatedAt]) are left out.  [User.t] is [req.user], as the authentication
    middleware selects it, and keeps its [id]. *)

Module User.
Record t := mk { id : string; email : string; name : string; role : UserRole }.
End User.

Module Category.
Record t := mk { name : string }.
End Category.

Module Item.
Record t := mk {
  name : string; categoryId : string;
  status : ItemStatus; dailyRate : Z; quantity : Z; createdAt : Z }.
End Item.

Module Customer.
Record t := mk { name : string; email : string; phone : string;
                 createdAt : Z }.
End Customer.

Module Rental.
Record t := mk {
  customerId : string; itemId : string; userId : string;
  startDate : Z; endDate : Z; returnDate : option Z;
  status : RentalStatus; notes : option string; createdAt : Z;
  dailyRate : Z; numberOfDays : Z; subtotal : Z; deposit : Z; discount : Z;
  totalAmount : Z; amountPaid : Z; amountDue : Z;
  paymentStatus : PaymentStatus }.
End Rental.

Module Payment.
Record t := mk {
  rentalId : string; amount : Z; paymentMethod : PaymentMethod;
  paymentDate : Z; reference : option string; notes : option string }.
End Payment.

Module Expense.
Record t := mk {
  description : string; amount : Z; category : string;
  expenseDate : Z }.
End Expense.

Module Maintenance.
Record t := mk {
  itemId : string; description : string; cost : Z;
  status : MaintenanceStatus; startDate : Z; endDate : option Z;
  createdAt : Z }.
End Maintenance.

(** ** The store *)

Record DB := mkDB {
  users : gmap string User.t;
  categories : gmap string Category.t;
  items : gmap string Item.t;
  customers : gmap string Customer.t;
  rentals : gmap string Rental.t;
  payments : gmap string Payment.t;
  expenses : gmap string Expense.t;
  maintenances : gmap string Maintenance.t }.

Definition set_items (f : gmap string Item.t → gmap string Item.t) (db : DB) : DB :=
  mkDB (users db) (categories db) (f (items db)) (customers db) (rentals db)
       (payments db) (expenses db) (maintenances db).
Definition set_rentals (f : gmap string Rental.t → gmap string Rental.t) (db : DB) : DB :=
  mkDB (users db) (categories db) (items db) (customers db) (f (rentals db))
       (payments db) (expenses db) (maintenances db).
Definition set_payments (f : gmap string Payment.t → gmap string Payment.t) (db : DB) : DB :=
  mkDB (users db) (categories db) (items db) (customers db) (rentals db)
       (f (payments db)) (expenses db) (maintenances db).
Definition set_expenses (f : gmap string Expense.t → gmap string Expense.t) (db : DB) : DB :=
  mkDB (users db) (categories db) (items db) (customers db) (rentals db)
       (payments db) (f (expenses db)) (maintenances db).
Definition set_maintenances (f : gmap string Maintenance.t → gmap string Maintenance.t)
    (db : DB) : DB :=
  mkDB (users db) (categories db) (items db) (customers db) (rentals db)
       (payments db) (expenses db) (f (maintenances db)).

(** ** JSON payloads *)

#[local] Unset Elimination Schemes.
Inductive json :=
| JNull
| JBool (b : bool)
| JNum (n : Z)
| JStr (s : string)
| JArr (xs : list json)
| JObj (fields : list (string * json)).
#[local] Set Elimination Schemes.

Definition obj := list (string * json).

Definition JOpt {A} (f : A → json) (o : option A) : json :=
  match o with Some a => f a | None => JNull end.

(** [o.k]: the value of property [k], [None] when the object has no such
    property. *)
Fixpoint prop (k : string) (o : obj) : option json :=
  match o with
  | [] => None
  | (k', v) :: o' => if decide (k' = k) then Some v else prop k o'
  end.

Definition has_prop (k : string) (o : obj) : bool :=
  bool_decide (is_Some (prop k o)).

(** [const { k1, ..., kn, ...rest } = o]: the rest object. *)
Definition omit (ks : list string) (o : obj) : obj :=
  filter (λ kv, kv.1 ∉ ks) o.

(** ** HTTP responses *)

Module Response.
Record t := mk { code : Z; body : json }.
End Response.

Definition json_ok (j : json) : Response.t := Response.mk 200 j.
Definition json_error (code : Z) (msg : string) : Response.t :=
  Response.mk code (JObj [("error", JStr msg)]).

(** ** Rows as JSON objects, in column order *)

Definition userSelect (u : User.t) : obj :=
  [("id", JStr (User.id u)); ("name", JStr (User.name u));
   ("email", JStr (User.email u))].

Definition categoryRow (id : string) (c : Category.t) : obj :=
  [("id", JStr id); ("name", JStr (Category.name c))].

Definition itemRow (id : string) (i : Item.t) : obj :=
  [("id", JStr id); ("name", JStr (Item.name i));
   ("categoryId", JStr (Item.categoryId i));
   ("status", JStr (ItemStatus_str (Item.status i)));
   ("dailyRate", JNum (Item.dailyRate i));
   ("quantity", JNum (Item.quantity i));
   ("createdAt", JNum (Item.createdAt i))].

Definition customerRow (id : string) (c : Customer.t) : obj :=
  [("id", JStr id); ("name", JStr (Customer.name c));
   ("email", JStr (Customer.email c)); ("phone", JStr (Customer.phone c));
   ("createdAt", JNum (Customer.createdAt c))].

Definition rentalRow (id : string) (r : Rental.t) : obj :=
  [("id", JStr id);
   ("customerId", JStr (Rental.customerId r));
   ("itemId", JStr (Rental.itemId r));
   ("userId", JStr (Rental.userId r));
   ("startDate", JNum (Rental.startDate r));
   ("endDate", JNum (Rental.endDate r));
   ("returnDate", JOpt JNum (Rental.returnDate r));
   ("status", JStr (RentalStatus_str (Rental.status r)));
   ("notes", JOpt JStr (Rental.notes r));
   ("createdAt", JNum (Rental.createdAt r));
   ("dailyRate", JNum (Rental.dailyRate r));
   ("numberOfDays", JNum (Rental.numberOfDays r));
   ("subtotal", JNum (Rental.subtotal r));
   ("deposit", JNum (Rental.deposit r));
   ("discount", JNum (Rental.discount r));
   ("totalAmount", JNum (Rental.totalAmount r));
   ("amountPaid", JNum (Rental.amountPaid r));
   ("amountDue", JNum (Rental.amountDue r));
   ("paymentStatus", JStr (PaymentStatus_str (Rental.paymentStatus r)))].

Definition paymentRow (id : string) (p : Payment.t) : obj :=
  [("id", JStr id); ("rentalId", JStr (Payment.rentalId p));
   ("amount", JNum (Payment.amount p));
   ("paymentMethod", JStr (PaymentMethod_str (Payment.paymentMethod p)));
   ("paymentDate", JNum (Payment.paymentDate p));
   ("reference", JOpt JStr (Payment.reference p));
   ("notes", JOpt JStr (Payment.notes p))].

Definition maintenanceRow (id : string) (m : Maintenance.t) : obj :=
  [("id", JStr id); ("itemId", JStr (Maintenance.itemId m));
   ("description", JStr (Maintenance.description m));
   ("cost", JNum (Maintenance.cost m));
   ("status", JStr (MaintenanceStatus_str (Maintenance.status m)));
   ("startDate", JNum (Maintenance.startDate m));
   ("endDate", JOpt JNum (Maintenance.endDate m));
   ("createdAt", JNum (Maintenance.createdAt m))].

(** ** Queries: [findMany] with [where], [orderBy] and [take] *)

Definition rows {A} (table : gmap string A) : list (string * A) := map_to_list table.

Definition asc {A} (key : A → Z) : relation (string * A) := λ a b, key a.2 ≤ key b.2.
Definition desc {A} (key : A → Z) : relation (string * A) := λ a b, key b.2 ≤ key a.2.

#[global] Instance asc_dec {A} (key : A → Z) a b : Decision (asc key a b).
Proof. unfold asc. apply _. Defined.
#[global] Instance desc_dec {A} (key : A → Z) a b : Decision (desc key a b).
Proof. unfold desc. apply _. Defined.

Definition findMany {A} (table : gmap string A) (P : A → Prop)
    `{∀ a, Decision (P a)} (R : relation (string * A)) `{∀ a b, Decision (R a b)}
    : list (string * A) :=
  merge_sort R (filter (λ row, P row.2) (rows table)).

(** ** The [include] clauses used for rentals *)

Definition paymentsOf (db : DB) (rentalId : string) : list (string * Payment.t) :=
  filter (λ p, Payment.rentalId p.2 = rentalId) (rows (payments db)).

Record RentalInclude := mkInclude {
  inc_customer : bool; inc_item : bool; inc_user : bool; inc_payments : bool }.

Definition rentalWith (inc : RentalInclude) (db : DB) (id : string) (r : Rental.t)
    : obj :=
  rentalRow id r
  ++ (if inc_customer inc
      then [("customer", JOpt (λ c, JObj (customerRow (Rental.customerId r) c))
                              (customers db !! Rental.customerId r))]
      else [])
  ++ (if inc_item inc
      then [("item", JOpt (λ i, JObj (itemRow (Rental.itemId r) i))
                          (items db !! Rental.itemId r))]
      else [])
  ++ (if inc_user inc
      then [("user", JOpt (λ u, JObj (userSelect u)) (users db !! Rental.userId r))]
      else [])
  ++ (if inc_payments inc
      then [("payments", JArr ((λ p, JObj (paymentRow p.1 p.2)) <$> paymentsOf db id))]
      else []).

Definition customer_item_user : RentalInclude := mkInclude true true true false.
Definition customer_item : RentalInclude := mkInclude true true false false.

(** ** Transactions

    [Tx A] is the body of a [prisma.$transaction] callback: it reads and
    writes the store and may throw.  [transaction] commits the writes of a
    body that returns and discards those of a body that throws.  A single
    Prisma call outside an explicit transaction commits on its own, which is
    [transaction] of that one call. *)

Inductive exn :=
| Thrown (message : string)
| PrismaError (code : string) (message : string).

Definition exn_message (e : exn) : string :=
  match e with Thrown m => m | PrismaError _ m => m end.

Definition Tx (A : Type) : Type := DB → exn + (DB * A).

Definition tx_ret {A} (a : A) : Tx A := λ db, inr (db, a).
Definition tx_bind {A B} (c : Tx A) (k : A → Tx B) : Tx B :=
  λ db, match c db with
        | inl e => inl e
        | inr (db', a) => k a db'
        end.
Definition throw {A} (e : exn) : Tx A := λ _, inl e.
Definition tx_gets {A} (f : DB → A) : Tx A := λ db, inr (db, f db).

Notation "'let*' x ':=' c 'in' k" := (tx_bind c (λ x, k))
  (at level 10, x name, c at level 100, k at level 200).

Definition transaction {A} (body : Tx A) (db : DB) : DB * (exn + A) :=
  match body db with
  | inl e => (db, inl e)
  | inr (db', a) => (db', inr a)
  end.

(** ** The [data] argument of [rental.update] / [rental.updateMany] *)

Module RentalData.
Record t := mk {
  startDate : option Z; endDate : option Z; returnDate : option Z;
  status : option RentalStatus; notes : option (option string);
  numberOfDays : option Z; subtotal : option Z; totalAmount : option Z;
  amountPaid : option Z; amountDue : option Z;
  paymentStatus : option PaymentStatus }.

Definition empty : t :=
  mk None None None None None None None None None None None.

Definition over {A} (new old : option A) : option A :=
  match new with Some _ => new | None => old end.

(** [{ ...a, ...b }] *)
Definition spread (a b : t) : t :=
  mk (over (startDate b) (startDate a)) (over (endDate b) (endDate a))
     (over (returnDate b) (returnDate a)) (over (status b) (status a))
     (over (notes b) (notes a)) (over (numberOfDays b) (numberOfDays a))
     (over (subtotal b) (subtotal a)) (over (totalAmount b) (totalAmount a))
     (over (amountPaid b) (amountPaid a)) (over (amountDue b) (amountDue a))
     (over (paymentStatus b) (paymentStatus a)).

Definition apply (d : t) (r : Rental.t) : Rental.t :=
  Rental.mk (Rental.customerId r) (Rental.itemId r) (Rental.userId r)
    (default (Rental.startDate r) (startDate d))
    (default (Rental.endDate r) (endDate d))
    (over (returnDate d) (Rental.returnDate r))
    (default (Rental.status r) (status d))
    (default (Rental.notes r) (notes d))
    (Rental.createdAt r) (Rental.dailyRate r)
    (default (Rental.numberOfDays r) (numberOfDays d))
    (default (Rental.subtotal r) (subtotal d))
    (Rental.deposit r) (Rental.discount r)
    (default (Rental.totalAmount r) (totalAmount d))
    (default (Rental.amountPaid r) (amountPaid d))
    (default (Rental.amountDue r) (amountDue d))
    (default (Rental.paymentStatus r) (paymentStatus d)).
End RentalData.

(** ** The [data] argument of [item.update] *)

Inductive IntUpdate := increment (n : Z) | decrement (n : Z).

Module ItemData.
Record t := mk { status : option ItemStatus; quantity : option IntUpdate }.

Definition apply (d : t) (i : Item.t) : Item.t :=
  Item.mk (Item.name i) (Item.categoryId i)
    (default (Item.status i) (status d)) (Item.dailyRate i)
    (match quantity d with
     | Some (increment n) => Item.quantity i + n
     | Some (decrement n) => Item.quantity i - n
     | None => Item.quantity i
     end)
    (Item.createdAt i).
End ItemData.

(** ** Prisma model calls *)

Definition P2002 : exn := PrismaError "P2002" "Unique constraint failed".
Definition P2025 : exn := PrismaError "P2025" "Record to update not found".

Definition rental_create (id : string) (r : Rental.t) : Tx Rental.t := λ db,
  match rentals db !! id with
  | Some _ => inl P2002
  | None => inr (set_rentals <[id := r]> db, r)
  end.

Definition rental_findUnique (id : string) : Tx (option Rental.t) :=
  tx_gets (λ db, rentals db !! id).

Definition rental_update (id : string) (data : RentalData.t) : Tx Rental.t := λ db,
  match rentals db !! id with
  | None => inl P2025
  | Some r =>
      let r' := RentalData.apply data r in
      inr (set_rentals <[id := r']> db, r')
  end.

Definition rental_updateMany (P : Rental.t → Prop) `{∀ r, Decision (P r)}
    (data : RentalData.t) : Tx unit := λ db,
  inr (set_rentals (fmap (λ r, if decide (P r) then RentalData.apply data r else r)) db,
       tt).

Definition item_update (id : string) (data : ItemData.t) : Tx Item.t := λ db,
  match items db !! id with
  | None => inl P2025
  | Some i =>
      let i' := ItemData.apply data i in
      inr (set_items <[id := i']> db, i')
  end.

Definition payment_create (id : string) (p : Payment.t) : Tx Payment.t := λ db,
  match payments db !! id with
  | Some _ => inl P2002
  | None => inr (set_payments <[id := p]> db, p)
  end.

Definition maintenance_create (id : string) (m : Maintenance.t) : Tx Maintenance.t :=
  λ db,
  match maintenances db !! id with
  | Some _ => inl P2002
  | None => inr (set_maintenances <[id := m]> db, m)
  end.

Definition maintenance_findUnique (id : string) : Tx (option Maintenance.t) :=
  tx_gets (λ db, maintenances db !! id).

(** [maintenance.update({ data: { status, endDate } })] *)
Definition maintenance_update (id : string) (status : MaintenanceStatus)
    (endDate : Z) : Tx Maintenance.t := λ db,
  match maintenances db !! id with
  | None => inl P2025
  | Some m =>
      let m' := Maintenance.mk (Maintenance.itemId m) (Maintenance.description m)
                  (Maintenance.cost m) status (Maintenance.startDate m)
                  (Some endDate) (Maintenance.createdAt m) in
      inr (set_maintenances <[id := m']> db, m')
  end.

Definition expense_create (id : string) (e : Expense.t) : Tx Expense.t := λ db,
  match expenses db !! id with
  | Some _ => inl P2002
  | None => inr (set_expenses <[id := e]> db, e)
  end.

Definition payment_findUnique (id : string) : Tx (option Payment.t) :=
  tx_gets (λ db, payments db !! id).

Definition payment_delete (id : string) : Tx unit := λ db,
  match payments db !! id with
  | None => inl P2025
  | Some _ => inr (set_payments (delete id) db, tt)
  end.

(** * The rentals router ([./routes/rentals] of the application; in the source
      tree it follows the maintenance router in routes/maintenance.js) *)

(** Helper function to remove financial data for staff. *)
Definition filterFinancialData (rental : obj) : obj :=
  omit ["dailyRate"; "numberOfDays"; "subtotal"; "deposit"; "discount";
        "totalAmount"; "amountPaid"; "amountDue"; "paymentStatus"; "payments"]
       rental.

(** [let response = x; if (req.user.role === 'STAFF') response = f(x)] *)
Definition forRole (user : User.t) (f : obj → obj) (x : obj) : obj :=
  if decide (User.role user = STAFF) then f x else x.

(** JavaScript truthiness of an optional string of the request. *)
Definition truthy (s : option string) : bool :=
  match s with
  | Some s => negb (bool_decide (s = EmptyString))
  | None => false
  end.

Definition MS_PER_DAY : Z := 1000 * 60 * 60 * 24.

(** [Math.ceil(a / b)] for [b > 0]. *)
Definition ceil_div (a b : Z) : Z := - ((- a) / b).

(** GET /:id *)
Definition getRental (user : User.t) (id : string) (db : DB) : DB * Response.t :=
  match rentals db !! id with
  | None => (db, json_error 404 "Rental not found")
  | Some rental =>
      let inc := mkInclude true true true (bool_decide (User.role user = ADMIN)) in
      (db, json_ok (JObj (forRole user filterFinancialData (rentalWith inc db id rental))))
  end.

(** POST / *)
Definition createRental (user : User.t) (now : Z) (newId : string)
    (customerId itemId : option string) (startDate endDate : option Z)
    (deposit discount : option Z) (notes : option string)
    (db : DB) : DB * Response.t :=
  match customerId, itemId, startDate, endDate with
  | Some cid, Some iid, Some start, Some end_ =>
    if negb (truthy customerId && truthy itemId) then
      (db, json_error 400 "Customer, item, start date, and end date are required")
    else if end_ <=? start then
      (db, json_error 400 "End date must be after start date")
    else
      match items db !! iid with
      | None => (db, json_error 404 "Item not found")
      | Some item =>
        if negb (bool_decide (Item.status item = AVAILABLE)) || (Item.quantity item <? 1)
        then (db, json_error 400 "Item is not available for rental")
        else
          match customers db !! cid with
          | None => (db, json_error 404 "Customer not found")
          | Some customer =>
            (* Calculate rental financials *)
            let numberOfDays := ceil_div (end_ - start) MS_PER_DAY in
            let subtotal := Item.dailyRate item * numberOfDays in
            let totalAmount := subtotal + default 0 deposit - default 0 discount in
            let amountDue := totalAmount in
            let body : Tx obj :=
              let* newRental :=
                rental_create newId
                  (Rental.mk cid iid (User.id user) start end_ None PENDING
                     notes now (Item.dailyRate item) numberOfDays subtotal
                     (default 0 deposit) (default 0 discount) totalAmount 0
                     amountDue UNPAID) in
              let* view := tx_gets (λ db, rentalWith customer_item_user db newId newRental) in
              (* Update item status and quantity *)
              let* _ := item_update iid (ItemData.mk (Some RENTED) (Some (decrement 1))) in
              tx_ret view in
            match transaction body db with
            | (db', inr rental) =>
                (db', Response.mk 201 (JObj (forRole user filterFinancialData rental)))
            | (db', inl _) => (db', json_error 500 "Failed to create rental")
            end
          end
      end
  | _, _, _, _ =>
      (db, json_error 400 "Customer, item, start date, and end date are required")
  end.

(** PUT /:id *)
Definition updateRental (user : User.t) (id : string)
    (startDate endDate : option Z) (status : option RentalStatus)
    (notes : option (option string)) (db : DB) : DB * Response.t :=
  match rentals db !! id with
  | None => (db, json_error 404 "Rental not found")
  | Some existingRental =>
    (* Recalculate if dates changed; [None] is the early 400 return *)
    let updates : option RentalData.t :=
      if bool_decide (is_Some startDate ∨ is_Some endDate) then
        let start := default (Rental.startDate existingRental) startDate in
        let end_ := default (Rental.endDate existingRental) endDate in
        if end_ <=? start then None
        else
          let numberOfDays := ceil_div (end_ - start) MS_PER_DAY in
          let subtotal := Rental.dailyRate existingRental * numberOfDays in
          let totalAmount :=
            subtotal + Rental.deposit existingRental - Rental.discount existingRental in
          let amountDue := totalAmount - Rental.amountPaid existingRental in
          Some (RentalData.mk (Some start) (Some end_) None None None
                  (Some numberOfDays) (Some subtotal) (Some totalAmount) None
                  (Some amountDue) None)
      else Some RentalData.empty in
    match updates with
    | None => (db, json_error 400 "End date must be after start date")
    | Some updates =>
      let data :=
        RentalData.spread
          (RentalData.spread updates
             (RentalData.mk None None None status None None None None None None None))
          (RentalData.mk None None None None notes None None None None None None) in
      match transaction
              (let* rental := rental_update id data in
               tx_gets (λ db, rentalWith customer_item_user db id rental)) db with
      | (db', inr rental) =>
          (db', json_ok (JObj (forRole user filterFinancialData rental)))
      | (db', inl (PrismaError "P2025" _)) => (db', json_error 404 "Rental not found")
      | (db', inl _) => (db', json_error 500 "Failed to update rental")
      end
    end
  end.

(** PUT /:id/return *)
Definition returnItem (user : User.t) (now : Z) (id : string) (db : DB)
    : DB * Response.t :=
  let body : Tx obj :=
    let* existingRental := rental_findUnique id in
    match existingRental with
    | None => throw (Thrown "Rental not found")
    | Some existingRental =>
      if decide (Rental.status existingRental = COMPLETED)
      then throw (Thrown "Rental already completed")
      else
        (* Update rental *)
        let* updatedRental :=
          rental_update id
            (RentalData.mk None None (Some now) (Some COMPLETED) None None None
               None None None None) in
        let* view := tx_gets (λ db, rentalWith customer_item_user db id updatedRental) in
        (* Update item *)
        let* _ := item_update (Rental.itemId existingRental)
                    (ItemData.mk (Some AVAILABLE) (Some (increment 1))) in
        tx_ret view
    end in
  match transaction body db with
  | (db', inr rental) =>
      (db', json_ok (JObj (forRole user filterFinancialData rental)))
  | (db', inl e) => (db', json_error 500 (exn_message e))
  end.

(** GET /status/overdue: the sweep, then the listing. *)
Definition overdue (now : Z) (r : Rental.t) : Prop :=
  Rental.status r = ACTIVE ∧ Rental.endDate r < now.

#[global] Instance overdue_dec now r : Decision (overdue now r).
Proof. unfold overdue. apply _. Defined.

Definition sweepOverdue (now : Z) : Tx unit :=
  rental_updateMany (overdue now)
    (RentalData.mk None None None (Some OVERDUE) None None None None None None None).

Definition listOverdue (db : DB) : list (string * Rental.t) :=
  findMany (rentals db) (λ r, Rental.status r = OVERDUE) (asc Rental.endDate).

Definition getOverdueRentals (user : User.t) (now : Z) (db : DB) : DB * Response.t :=
  match transaction (sweepOverdue now) db with
  | (db', inl _) => (db', json_error 500 "Failed to fetch overdue rentals")
  | (db', inr _) =>
      let rentals := listOverdue db' in
      (db', json_ok (JArr ((λ r, JObj (forRole user filterFinancialData
                                         (rentalWith customer_item db' r.1 r.2)))
                           <$> rentals)))
  end.

(** * The finances router, routes/finances.js
      (ALL ROUTES IN THIS FILE ARE ADMIN ONLY) *)

(** middleware/auth.js *)
Definition requireAdmin (user : User.t) (next : DB → DB * Response.t) (db : DB)
    : DB * Response.t :=
  if decide (User.role user ≠ ADMIN)
  then (db, json_error 403 "Admin access required")
  else next db.

(** The three-way classification that both payment handlers inline:
    [let paymentStatus = 'UNPAID'; if (newAmountPaid >= rental.totalAmount)
    paymentStatus = 'PAID'; else if (newAmountPaid > 0) paymentStatus = 'PARTIAL'] *)
Definition paymentStatusOf (newAmountPaid totalAmount : Z) : PaymentStatus :=
  if totalAmount <=? newAmountPaid then PAID
  else if 0 <? newAmountPaid then PARTIAL
  else UNPAID.

Definition paymentWithRental (db : DB) (id : string) (p : Payment.t) : obj :=
  paymentRow id p
  ++ [("rental", JOpt (λ r, JObj (rentalWith customer_item db (Payment.rentalId p) r))
                      (rentals db !! Payment.rentalId p))].

(** POST /payments *)
Definition recordPayment (user : User.t) (now : Z) (newId : string)
    (rentalId : option string) (amount : option Z)
    (paymentMethod : option PaymentMethod) (reference notes : option string)
    : DB → DB * Response.t :=
  requireAdmin user (λ db,
  match rentalId, amount, paymentMethod with
  | Some rid, Some amount, Some method =>
    if negb (truthy rentalId) || (amount =? 0) then
      (db, json_error 400 "Rental, amount, and payment method are required")
    else
      match rentals db !! rid with
      | None => (db, json_error 404 "Rental not found")
      | Some rental =>
        (* Validate amount *)
        let paymentAmount := amount in
        if paymentAmount <=? 0 then
          (db, json_error 400 "Payment amount must be greater than zero")
        else if Rental.amountDue rental <? paymentAmount then
          (db, json_error 400 "Payment amount cannot exceed amount due")
        else
          let body : Tx obj :=
            let* newPayment :=
              payment_create newId
                (Payment.mk rid paymentAmount method now reference notes) in
            let* view := tx_gets (λ db, paymentWithRental db newId newPayment) in
            (* Update rental amounts *)
            let newAmountPaid := Rental.amountPaid rental + paymentAmount in
            let newAmountDue := Rental.totalAmount rental - newAmountPaid in
            let paymentStatus := paymentStatusOf newAmountPaid (Rental.totalAmount rental) in
            let* _ :=
              rental_update rid
                (RentalData.mk None None None None None None None None
                   (Some newAmountPaid) (Some newAmountDue) (Some paymentStatus)) in
            tx_ret view in
          match transaction body db with
          | (db', inr payment) => (db', Response.mk 201 (JObj payment))
          | (db', inl _) => (db', json_error 500 "Failed to record payment")
          end
      end
  | _, _, _ =>
      (db, json_error 400 "Rental, amount, and payment method are required")
  end).

(** DELETE /payments/:id *)
Definition deletePayment (user : User.t) (id : string) : DB → DB * Response.t :=
  requireAdmin user (λ db,
  let body : Tx obj :=
    let* existing := payment_findUnique id in
    match existing with
    | None => throw (Thrown "Payment not found")
    | Some existing =>
      let* view := tx_gets (λ db, paymentRow id existing
                     ++ [("rental", JOpt (λ r, JObj (rentalRow (Payment.rentalId existing) r))
                                         (rentals db !! Payment.rentalId existing))]) in
      let* existing_rental := rental_findUnique (Payment.rentalId existing) in
      (* Delete payment *)
      let* _ := payment_delete id in
      (* Update rental amounts *)
      match existing_rental with
      | None => throw (Thrown "Cannot read properties of null")
      | Some rental =>
        let newAmountPaid := Rental.amountPaid rental - Payment.amount existing in
        let newAmountDue := Rental.totalAmount rental - newAmountPaid in
        let paymentStatus := paymentStatusOf newAmountPaid (Rental.totalAmount rental) in
        (* [rental.id], the key under which [existing.rental] was joined *)
        let* _ :=
          rental_update (Payment.rentalId existing)
            (RentalData.mk None None None None None None None None
               (Some newAmountPaid) (Some newAmountDue) (Some paymentStatus)) in
        tx_ret view
      end
    end in
  match transaction body db with
  | (db', inr payment) =>
      (db', json_ok (JObj [("message", JStr "Payment deleted successfully");
                           ("payment", JObj payment)]))
  | (db', inl e) => (db', json_error 500 (exn_message e))
  end).

(** POST /expenses *)
Definition createExpense (user : User.t) (now : Z) (newId : string)
    (description : option string) (amount : option Z) (category : option string)
    (expenseDate : option Z) : DB → DB * Response.t :=
  requireAdmin user (λ db,
  match description, amount, category with
  | Some desc, Some amt, Some cat =>
    if negb (truthy description && truthy category) || (amt =? 0) then
      (db, json_error 400 "Description, amount, and category are required")
    else
      match transaction
              (expense_create newId (Expense.mk desc amt cat (default now expenseDate)))
              db with
      | (db', inr e) =>
          (db', Response.mk 201
                  (JObj [("id", JStr newId);
                         ("description", JStr (Expense.description e));
                         ("amount", JNum (Expense.amount e));
                         ("category", JStr (Expense.category e));
                         ("expenseDate", JNum (Expense.expenseDate e))]))
      | (db', inl _) => (db', json_error 500 "Failed to create expense")
      end
  | _, _, _ =>
      (db, json_error 400 "Description, amount, and category are required")
  end).

(** [where.<date> = { gte: startDate, lte: endDate }], each bound present
    only when the query gives it. *)
Definition inPeriod (startDate endDate : option Z) (d : Z) : Prop :=
  from_option (λ s, s ≤ d) True startDate ∧ from_option (λ e, d ≤ e) True endDate.

#[global] Instance inPeriod_dec s e d : Decision (inPeriod s e d).
Proof. unfold inPeriod. destruct s, e; simpl; apply _. Defined.

Definition sum (xs : list Z) : Z := foldr Z.add 0 xs.

(** [aggregate({ where, _sum: { f: true } })._sum.f]: [null] over no row. *)
Definition aggregate_sum {A} (table : gmap string A) (P : A → Prop)
    `{∀ a, Decision (P a)} (f : A → Z) : option Z :=
  match filter (λ row, P row.2) (rows table) with
  | [] => None
  | matching => Some (sum ((λ row, f row.2) <$> matching))
  end.

Definition outstanding (r : Rental.t) : Prop :=
  Rental.paymentStatus r ∈ [UNPAID; PARTIAL].

(** [x.toFixed(2)] for the exact quotient [x = num / den] with [den > 0]:
    the decimal with two fraction digits nearest to [x], the larger one
    in magnitude at a tie, as a string. *)
Definition hundredths (num den : Z) : Z :=
  (2 * 100 * Z.abs num + den) / (2 * den).

Definition fixed2 (negative : bool) (n : Z) : string :=
  (if negative then "-" else EmptyString)
  +:+ pretty (n / 100) +:+ "." +:+ pretty (n mod 100 / 10) +:+ pretty (n mod 10).

Definition toFixed2 (num den : Z) : string :=
  fixed2 (num <? 0) (hundredths num den).

(** GET /summary *)
Definition summary (user : User.t) (startDate endDate : option Z)
    : DB → DB * Response.t :=
  requireAdmin user (λ db,
  (* Get total revenue (all payments) *)
  let payments_sum :=
    aggregate_sum (payments db) (λ p, inPeriod startDate endDate (Payment.paymentDate p))
                  Payment.amount in
  (* Get total expenses *)
  let expenses_sum :=
    aggregate_sum (expenses db) (λ e, inPeriod startDate endDate (Expense.expenseDate e))
                  Expense.amount in
  (* Get outstanding payments *)
  let outstandingRentals_sum :=
    aggregate_sum (rentals db) outstanding Rental.amountDue in
  let totalRevenue := default 0 payments_sum in
  let totalExpenses := default 0 expenses_sum in
  let netProfit := totalRevenue - totalExpenses in
  let outstandingPayments := default 0 outstandingRentals_sum in
  (db, json_ok (JObj
    [("totalRevenue", JNum totalRevenue);
     ("totalExpenses", JNum totalExpenses);
     ("netProfit", JNum netProfit);
     ("outstandingPayments", JNum outstandingPayments);
     ("profitMargin",
      if 0 <? totalRevenue
      then JStr (toFixed2 (netProfit * 100) totalRevenue)
      else JNum 0)]))).

(** * The items router ([./routes/items]; in the source tree it follows the
      finances router in routes/finances.js) *)

(** GET /:id: the item with its category, its ten latest rentals (each with
    its customer) and its ten latest maintenance records.  The handler sends
    [item] as it is, for either role. *)
Definition getItem (user : User.t) (id : string) (db : DB) : DB * Response.t :=
  match items db !! id with
  | None => (db, json_error 404 "Item not found")
  | Some item =>
      let item_rentals :=
        take 10 (findMany (rentals db) (λ r, Rental.itemId r = id)
                          (desc Rental.createdAt)) in
      let item_maintenances :=
        take 10 (findMany (maintenances db) (λ m, Maintenance.itemId m = id)
                          (desc Maintenance.createdAt)) in
      (db, json_ok (JObj
        (itemRow id item
         ++ [("category", JOpt (λ c, JObj (categoryRow (Item.categoryId item) c))
                               (categories db !! Item.categoryId item));
             ("rentals",
              JArr ((λ r, JObj (rentalWith (mkInclude true false false false) db r.1 r.2))
                    <$> item_rentals));
             ("maintenances",
              JArr ((λ m, JObj (maintenanceRow m.1 m.2)) <$> item_maintenances))])))
  end.

(** * The customers router, routes/customers.js *)

(** GET /:id: the customer with all rentals (each with its item); for staff
    the rentals are mapped through an inline destructuring. *)
Definition getCustomer (user : User.t) (id : string) (db : DB) : DB * Response.t :=
  match customers db !! id with
  | None => (db, json_error 404 "Customer not found")
  | Some customer =>
      let customer_rentals :=
        (λ r, rentalWith (mkInclude false true false false) db r.1 r.2)
        <$> findMany (rentals db) (λ r, Rental.customerId r = id)
                     (desc Rental.createdAt) in
      let customer_rentals :=
        if decide (User.role user = STAFF) then
          omit ["dailyRate"; "numberOfDays"; "subtotal"; "deposit"; "discount";
                "totalAmount"; "amountPaid"; "amountDue"; "paymentStatus"]
          <$> customer_rentals
        else customer_rentals in
      (db, json_ok (JObj (customerRow id customer
                          ++ [("rentals", JArr (JObj <$> customer_rentals))])))
  end.

(** * The maintenance router, routes/maintenance.js *)

(** Helper function to remove cost for staff. *)
Definition filterCost (maintenance : obj) : obj := omit ["cost"] maintenance.

Definition maintenanceWithItem (db : DB) (id : string) (m : Maintenance.t) : obj :=
  maintenanceRow id m
  ++ [("item", JOpt (λ i, JObj (itemRow (Maintenance.itemId m) i))
                    (items db !! Maintenance.itemId m))].

(** GET /:id *)
Definition getMaintenance (user : User.t) (id : string) (db : DB)
    : DB * Response.t :=
  match maintenances db !! id with
  | None => (db, json_error 404 "Maintenance record not found")
  | Some maintenance =>
      (db, json_ok (JObj (forRole user filterCost
                            (maintenanceWithItem db id maintenance))))
  end.

(** POST / *)
Definition createMaintenance (user : User.t) (now : Z) (newId : string)
    (itemId description : option string) (cost : option Z) (db : DB)
    : DB * Response.t :=
  match itemId, description with
  | Some iid, Some desc =>
    if negb (truthy itemId && truthy description) then
      (db, json_error 400 "Item and description are required")
    else
      match items db !! iid with
      | None => (db, json_error 404 "Item not found")
      | Some item =>
        let body : Tx obj :=
          let* newMaintenance :=
            maintenance_create newId
              (Maintenance.mk iid desc
                 (if decide (User.role user = ADMIN) then default 0 cost else 0)
                 MAINT_PENDING now None now) in
          let* view := tx_gets (λ db, maintenanceWithItem db newId newMaintenance) in
          (* Update item status *)
          let* _ := item_update iid (ItemData.mk (Some MAINTENANCE) None) in
          tx_ret view in
        match transaction body db with
        | (db', inr maintenance) =>
            (db', Response.mk 201 (JObj (forRole user filterCost maintenance)))
        | (db', inl _) => (db', json_error 500 "Failed to create maintenance record")
        end
      end
  | _, _ => (db, json_error 400 "Item and description are required")
  end.

(** PUT /:id/complete *)
Definition completeMaintenance (user : User.t) (now : Z) (id : string) (db : DB)
    : DB * Response.t :=
  let body : Tx obj :=
    let* existing := maintenance_findUnique id in
    match existing with
    | None => throw (Thrown "Maintenance record not found")
    | Some existing =>
      if decide (Maintenance.status existing = MAINT_COMPLETED)
      then throw (Thrown "Maintenance already completed")
      else
        (* Update maintenance *)
        let* updated := maintenance_update id MAINT_COMPLETED now in
        let* view := tx_gets (λ db, maintenanceWithItem db id updated) in
        (* Update item status back to available *)
        let* _ := item_update (Maintenance.itemId existing)
                    (ItemData.mk (Some AVAILABLE) None) in
        tx_ret view
    end in
  match transaction body db with
  | (db', inr maintenance) =>
      (db', json_ok (JObj (forRole user filterCost maintenance)))
  | (db', inl e) => (db', json_error 500 (exn_message e))
  end.

(** * Requests that write rentals, as one type *)

Inductive Request :=
| CreateRental (user : User.t) (now : Z) (newId : string)
    (customerId itemId : option string) (startDate endDate : option Z)
    (deposit discount : option Z) (notes : option string)
| UpdateRental (user : User.t) (id : string) (startDate endDate : option Z)
    (status : option RentalStatus) (notes : option (option string))
| ReturnItem (user : User.t) (now : Z) (id : string)
| GetOverdueRentals (user : User.t) (now : Z)
| RecordPayment (user : User.t) (now : Z) (newId : string)
    (rentalId : option string) (amount : option Z)
    (paymentMethod : option PaymentMethod) (reference notes : option string)
| DeletePayment (user : User.t) (id : string).

Definition handle (req : Request) : DB → DB * Response.t :=
  match req with
  | CreateRental user now newId customerId itemId startDate endDate deposit discount notes =>
      createRental user now newId customerId itemId startDate endDate deposit discount notes
  | UpdateRental user id startDate endDate status notes =>
      updateRental user id startDate endDate status notes
  | ReturnItem user now id => returnItem user now id
  | GetOverdueRentals user now => getOverdueRentals user now
  | RecordPayment user now newId rentalId amount paymentMethod reference notes =>
      recordPayment user now newId rentalId amount paymentMethod reference notes
  | DeletePayment user id => deletePayment user id
  end.

(** * Sample data *)

Definition admin : User.t := User.mk "u-admin" "admin@rental.com" "Admin User" ADMIN.
Definition staff : User.t := User.mk "u-staff" "staff@rental.com" "Staff User" STAFF.

(** [new Date("2026-02-14")], [new Date("2026-02-20")] and
    [new Date("2026-02-21")], UTC midnights. *)
Definition date_2026_02_14 : Z := 1771027200000.
Definition date_2026_02_20 : Z := 1771545600000.
Definition date_2026_02_21 : Z := 1771632000000.

Definition drill : Item.t := Item.mk "Power Drill" "c-tools" AVAILABLE 15 5 0.
Definition alice : Customer.t := Customer.mk "Alice" "alice@example.com" "555-0100" 0.

Definition db0 : DB :=
  mkDB (<["u-admin" := admin]> (<["u-staff" := staff]> ∅))
       (<["c-tools" := Category.mk "Tools"]> ∅)
       (<["i-drill" := drill]> ∅)
       (<["c-alice" := alice]> ∅)
       ∅ ∅ ∅ ∅.

(** * Properties of rows and payloads used in the statements *)

(** The balance equation of a rental. *)
Definition balanced (r : Rental.t) : Prop :=
  Rental.amountDue r + Rental.amountPaid r = Rental.totalAmount r.


#[global] Instance balanced_dec r : Decision (balanced r).
Proof. unfold balanced. apply _. Defined.

Definition all_balanced (db : DB) : Prop :=
  map_Forall (λ _ r, balanced r) (rentals db).

#[global] Instance all_balanced_dec db : Decision (all_balanced db).
Proof. unfold all_balanced. apply _. Defined.

(** A rental with another status and every other column as it is. *)
Definition setStatus (s : RentalStatus) (r : Rental.t) : Rental.t :=
  Rental.mk (Rental.customerId r) (Rental.itemId r) (Rental.userId r)
    (Rental.startDate r) (Rental.endDate r) (Rental.returnDate r) s
    (Rental.notes r) (Rental.createdAt r) (Rental.dailyRate r)
    (Rental.numberOfDays r) (Rental.subtotal r) (Rental.deposit r)
    (Rental.discount r) (Rental.totalAmount r) (Rental.amountPaid r)
    (Rental.amountDue r) (Rental.paymentStatus r).

(** The three payment columns of a rental. *)
Definition ledger (r : Rental.t) : Z * Z * PaymentStatus :=
  (Rental.amountPaid r, Rental.amountDue r, Rental.paymentStatus r).

(** The financial columns of a rental and of a maintenance record. *)
Definition rentalFinancialFields : list string :=
  ["dailyRate"; "numberOfDays"; "subtotal"; "deposit"; "discount";
   "totalAmount"; "amountPaid"; "amountDue"; "paymentStatus"].
Definition maintenanceFinancialFields : list string := ["cost"].

(** Navigation in a payload. *)
Definition field (k : string) (j : json) : option json :=
  match j with JObj o => prop k o | _ => None end.
Definition elements (j : option json) : list json :=
  match j with Some (JArr xs) => xs | _ => [] end.

(** The fields of [ks] that a record of the payload carries. *)
Definition exposed (ks : list string) (j : json) : list string :=
  filter (λ k, is_Some (field k j)) ks.

(** A store in which the sample item was rented, paid for and returned, and
    then went through maintenance: it holds the completed rental [rental1]
    and one completed maintenance record. *)
Definition db1 : DB :=
  let db := (createRental staff date_2026_02_14 "r-1" (Some "c-alice")
               (Some "i-drill") (Some date_2026_02_14) (Some date_2026_02_20)
               (Some 50) (Some 10) None db0).1 in
  let db := (recordPayment admin date_2026_02_14 "p-1" (Some "r-1") (Some 130)
               (Some CASH) None None db).1 in
  let db := (returnItem staff date_2026_02_20 "r-1" db).1 in
  let db := (createMaintenance admin date_2026_02_20 "m-1" (Some "i-drill")
               (Some "Replace chuck") (Some 40) db).1 in
  (completeMaintenance staff date_2026_02_20 "m-1" db).1.

Definition rental1 : Rental.t :=
  Rental.mk "c-alice" "i-drill" "u-staff" date_2026_02_14 date_2026_02_20
    (Some date_2026_02_20) COMPLETED None date_2026_02_14
    15 6 90 50 10 130 130 0 PAID.

(** The rows and [data] objects that the handlers build, named for the
    statements below. *)
Definition newRentalRow (user : User.t) (now : Z) (cid iid : string)
    (start end_ : Z) (deposit discount : option Z) (notes : option string)
    (item : Item.t) : Rental.t :=
  let numberOfDays := ceil_div (end_ - start) MS_PER_DAY in
  let subtotal := Item.dailyRate item * numberOfDays in
  let totalAmount := subtotal + default 0 deposit - default 0 discount in
  Rental.mk cid iid (User.id user) start end_ None PENDING notes now
    (Item.dailyRate item) numberOfDays subtotal (default 0 deposit)
    (default 0 discount) totalAmount 0 totalAmount UNPAID.

Definition reserveUnit : ItemData.t := ItemData.mk (Some RENTED) (Some (decrement 1)).
Definition releaseUnit : ItemData.t := ItemData.mk (Some AVAILABLE) (Some (increment 1)).

Definition datesData (existingRental : Rental.t) (start end_ : Z) : RentalData.t :=
  let numberOfDays := ceil_div (end_ - start) MS_PER_DAY in
  let subtotal := Rental.dailyRate existingRental * numberOfDays in
  let totalAmount :=
    subtotal + Rental.deposit existingRental - Rental.discount existingRental in
  RentalData.mk (Some start) (Some end_) None None None (Some numberOfDays)
    (Some subtotal) (Some totalAmount) None
    (Some (totalAmount - Rental.amountPaid existingRental)) None.

Definition updateRentalData (existingRental : Rental.t)
    (startDate endDate : option Z) (status : option RentalStatus)
    (notes : option (option string)) : RentalData.t :=
  let updates :=
    if bool_decide (is_Some startDate ∨ is_Some endDate)
    then datesData existingRental
           (default (Rental.startDate existingRental) startDate)
           (default (Rental.endDate existingRental) endDate)
    else RentalData.empty in
  RentalData.mk (RentalData.startDate updates) (RentalData.endDate updates) None
    status notes (RentalData.numberOfDays updates) (RentalData.subtotal updates)
    (RentalData.totalAmount updates) None (RentalData.amountDue updates) None.

Definition returnData (now : Z) : RentalData.t :=
  RentalData.mk None None (Some now) (Some COMPLETED) None None None None None
    None None.

Definition overdueData : RentalData.t :=
  RentalData.mk None None None (Some OVERDUE) None None None None None None None.

Definition paymentData (rental : Rental.t) (newAmountPaid : Z) : RentalData.t :=
  RentalData.mk None None None None None None None None (Some newAmountPaid)
    (Some (Rental.totalAmount rental - newAmountPaid))
    (Some (paymentStatusOf newAmountPaid (Rental.totalAmount rental))).

(** A rental taken out, paid in full, then extended by a day. *)
Definition db_rented : DB :=
  (createRental staff date_2026_02_14 "r-2" (Some "c-alice") (Some "i-drill")
     (Some date_2026_02_14) (Some date_2026_02_20) (Some 50) (Some 10) None db0).1.
Definition db_paid : DB :=
  (recordPayment admin date_2026_02_14 "p-1" (Some "r-2") (Some 130) (Some CASH)
     None None db_rented).1.
Definition db_extended : DB :=
  (updateRental staff "r-2" None (Some date_2026_02_21) None None db_paid).1.

(** A store whose only payment is 3 (a three-day rental at a daily rate of
    1, paid in full) and whose only expense is 2. *)
Definition date_2026_02_17 : Z := 1771286400000.

Definition db_thirds : DB :=
  let db := set_items <["i-bit" := Item.mk "Drill Bit" "c-tools" AVAILABLE 1 10 0]> db0 in
  let db := (createRental staff date_2026_02_14 "r-3" (Some "c-alice")
               (Some "i-bit") (Some date_2026_02_14) (Some date_2026_02_17)
               None None None db).1 in
  let db := (recordPayment admin date_2026_02_14 "p-3" (Some "r-3") (Some 3)
               (Some CASH) None None db).1 in
  (createExpense admin date_2026_02_14 "e-1" (Some "Blades") (Some 2)
     (Some "OTHER") None db).1.

(** The status that a request asks to write to rental [id], and whether the
    request is the return of rental [id]. *)
Definition statusWrite (req : Request) (id : string) : option RentalStatus :=
  match req with
  | UpdateRental _ id' _ _ (Some s) _ => if decide (id' = id) then Some s else None
  | _ => None
  end.

Definition isReturnOf (req : Request) (id : string) : bool :=
  match req with
  | ReturnItem _ _ id' => bool_decide (id' = id)
  | _ => false
  end.

(** The store after the sweep of GET /status/overdue. *)
Definition swept (now : Z) (db : DB) : DB :=
  set_rentals (fmap (λ r, if decide (overdue now r)
                          then RentalData.apply overdueData r else r)) db.

(** * Further handlers of the routers *)

Definition set_customers (f : gmap string Customer.t → gmap string Customer.t)
    (db : DB) : DB :=
  mkDB (users db) (categories db) (items db) (f (customers db)) (rentals db)
       (payments db) (expenses db) (maintenances db).
Definition set_categories (f : gmap string Category.t → gmap string Category.t)
    (db : DB) : DB :=
  mkDB (users db) (f (categories db)) (items db) (customers db) (rentals db)
       (payments db) (expenses db) (maintenances db).

Definition P2003 : exn := PrismaError "P2003" "Foreign key constraint failed".

(** [count({ where })] *)
Definition count {A} (table : gmap string A) (P : A → Prop)
    `{∀ a, Decision (P a)} : nat :=
  length (filter (λ row, P row.2) (rows table)).

(** ** The rentals router: GET /status/active *)
Definition getActiveRentals (user : User.t) (db : DB) : DB * Response.t :=
  let rentals :=
    findMany (rentals db) (λ r, Rental.status r = ACTIVE) (asc Rental.endDate) in
  (db, json_ok (JArr ((λ r, JObj (forRole user filterFinancialData
                                    (rentalWith customer_item db r.1 r.2)))
                      <$> rentals))).

(** ** The maintenance router: PUT /:id and DELETE /:id *)

Module MaintenanceData.
Record t := mk {
  description : option string; status : option MaintenanceStatus;
  cost : option Z }.

Definition apply (d : t) (m : Maintenance.t) : Maintenance.t :=
  Maintenance.mk (Maintenance.itemId m)
    (default (Maintenance.description m) (description d))
    (default (Maintenance.cost m) (cost d))
    (default (Maintenance.status m) (status d))
    (Maintenance.startDate m) (Maintenance.endDate m) (Maintenance.createdAt m).
End MaintenanceData.

Definition maintenance_updateData (id : string) (data : MaintenanceData.t)
    : Tx Maintenance.t := λ db,
  match maintenances db !! id with
  | None => inl P2025
  | Some m =>
      let m' := MaintenanceData.apply data m in
      inr (set_maintenances <[id := m']> db, m')
  end.

Definition maintenance_delete (id : string) : Tx unit := λ db,
  match maintenances db !! id with
  | None => inl P2025
  | Some _ => inr (set_maintenances (delete id) db, tt)
  end.

(** PUT /:id *)
Definition updateMaintenance (user : User.t) (id : string)
    (description : option string) (status : option MaintenanceStatus)
    (cost : option Z) (db : DB) : DB * Response.t :=
  (* Build update data based on role; only admin can update cost *)
  let updateData :=
    MaintenanceData.mk (if truthy description then description else None) status
      (if decide (User.role user = ADMIN) then cost else None) in
  match transaction
          (let* maintenance := maintenance_updateData id updateData in
           tx_gets (λ db, maintenanceWithItem db id maintenance)) db with
  | (db', inr maintenance) =>
      (db', json_ok (JObj (forRole user filterCost maintenance)))
  | (db', inl (PrismaError "P2025" _)) =>
      (db', json_error 404 "Maintenance record not found")
  | (db', inl _) => (db', json_error 500 "Failed to update maintenance record")
  end.

(** DELETE /:id *)
Definition deleteMaintenance (id : string) (db : DB) : DB * Response.t :=
  match transaction (maintenance_delete id) db with
  | (db', inr _) =>
      (db', json_ok (JObj [("message", JStr "Maintenance record deleted successfully")]))
  | (db', inl (PrismaError "P2025" _)) =>
      (db', json_error 404 "Maintenance record not found")
  | (db', inl _) => (db', json_error 500 "Failed to delete maintenance record")
  end.

(** ** The customers router: GET /:id/rentals and DELETE /:id *)

Definition getCustomerRentals (user : User.t) (id : string) (db : DB)
    : DB * Response.t :=
  let rentals :=
    (λ r, rentalWith (mkInclude false true true false) db r.1 r.2)
    <$> findMany (rentals db) (λ r, Rental.customerId r = id)
                 (desc Rental.createdAt) in
  let response :=
    if decide (User.role user = STAFF) then
      omit ["dailyRate"; "numberOfDays"; "subtotal"; "deposit"; "discount";
            "totalAmount"; "amountPaid"; "amountDue"; "paymentStatus"]
      <$> rentals
    else rentals in
  (db, json_ok (JArr (JObj <$> response))).

(** [customer.delete]: the row must exist, and the foreign key
    [Rental_customerId_fkey] is ON DELETE RESTRICT. *)
Definition customer_delete (id : string) : Tx unit := λ db,
  match customers db !! id with
  | None => inl P2025
  | Some _ =>
      if decide (count (rentals db) (λ r, Rental.customerId r = id) = 0%nat)
      then inr (set_customers (delete id) db, tt)
      else inl P2003
  end.

Definition deleteCustomer (id : string) (db : DB) : DB * Response.t :=
  (* Check if customer has active rentals *)
  let activeRentals :=
    count (rentals db)
          (λ r, Rental.customerId r = id ∧ Rental.status r ∈ [PENDING; ACTIVE]) in
  if decide (0 < activeRentals)%nat then
    (db, json_error 400 "Cannot delete customer with active rentals")
  else
    match transaction (customer_delete id) db with
    | (db', inr _) =>
        (db', json_ok (JObj [("message", JStr "Customer deleted successfully")]))
    | (db', inl (PrismaError "P2025" _)) => (db', json_error 404 "Customer not found")
    | (db', inl _) => (db', json_error 500 "Failed to delete customer")
    end.

(** ** The items router: DELETE /:id *)

(** [item.delete]: the row must exist, and the foreign keys
    [Rental_itemId_fkey] and [Maintenance_itemId_fkey] are ON DELETE
    RESTRICT. *)
Definition item_delete (id : string) : Tx unit := λ db,
  match items db !! id with
  | None => inl P2025
  | Some _ =>
      if decide (count (rentals db) (λ r, Rental.itemId r = id) = 0%nat) then
        if decide (count (maintenances db) (λ m, Maintenance.itemId m = id) = 0%nat)
        then inr (set_items (delete id) db, tt)
        else inl P2003
      else inl P2003
  end.

Definition deleteItem (id : string) (db : DB) : DB * Response.t :=
  (* Check if item has active rentals *)
  let activeRentals :=
    count (rentals db)
          (λ r, Rental.itemId r = id ∧ Rental.status r ∈ [PENDING; ACTIVE]) in
  if decide (0 < activeRentals)%nat then
    (db, json_error 400 "Cannot delete item with active rentals")
  else
    match transaction (item_delete id) db with
    | (db', inr _) =>
        (db', json_ok (JObj [("message", JStr "Item deleted successfully")]))
    | (db', inl (PrismaError "P2025" _)) => (db', json_error 404 "Item not found")
    | (db', inl _) => (db', json_error 500 "Failed to delete item")
    end.

(** * The categories router, routes/categories.js

    A category is modelled by its name; the optional description, which no
    handler reads, is left out. *)

(** [Category_name_key] is a unique index. *)
Definition nameTaken (db : DB) (except : option string) (name : string) : Prop :=
  filter (λ row : string * Category.t,
            Some row.1 ≠ except ∧ Category.name row.2 = name)
         (rows (categories db)) ≠ [].

#[global] Instance nameTaken_dec db except name : Decision (nameTaken db except name).
Proof. unfold nameTaken. apply _. Defined.

Definition category_create (id : string) (c : Category.t) : Tx Category.t := λ db,
  match categories db !! id with
  | Some _ => inl P2002
  | None =>
      if decide (nameTaken db None (Category.name c)) then inl P2002
      else inr (set_categories <[id := c]> db, c)
  end.

(** [category.update({ data: { ...(name && { name }) } })] *)
Definition category_update (id : string) (name : option string) : Tx Category.t :=
  λ db,
  match categories db !! id with
  | None => inl P2025
  | Some c =>
      match name with
      | None => inr (db, c)
      | Some n =>
          if decide (nameTaken db (Some id) n) then inl P2002
          else inr (set_categories <[id := Category.mk n]> db, Category.mk n)
      end
  end.

(** [Item_categoryId_fkey] is ON DELETE RESTRICT. *)
Definition category_delete (id : string) : Tx unit := λ db,
  match categories db !! id with
  | None => inl P2025
  | Some _ =>
      if decide (count (items db) (λ i, Item.categoryId i = id) = 0%nat)
      then inr (set_categories (delete id) db, tt)
      else inl P2003
  end.

(** GET /:id *)
Definition getCategory (id : string) (db : DB) : DB * Response.t :=
  match categories db !! id with
  | None => (db, json_error 404 "Category not found")
  | Some category =>
      (db, json_ok (JObj
        (categoryRow id category
         ++ [("items",
              JArr ((λ i, JObj (itemRow i.1 i.2))
                    <$> filter (λ i, Item.categoryId i.2 = id) (rows (items db))))])))
  end.

(** POST / *)
Definition createCategory (newId : string) (name : option string) (db : DB)
    : DB * Response.t :=
  match name with
  | Some n =>
    if negb (truthy name) then (db, json_error 400 "Category name is required")
    else
      match transaction (category_create newId (Category.mk n)) db with
      | (db', inr category) => (db', Response.mk 201 (JObj (categoryRow newId category)))
      | (db', inl (PrismaError "P2002" _)) =>
          (db', json_error 400 "Category with this name already exists")
      | (db', inl _) => (db', json_error 500 "Failed to create category")
      end
  | None => (db, json_error 400 "Category name is required")
  end.

(** PUT /:id *)
Definition updateCategory (id : string) (name : option string) (db : DB)
    : DB * Response.t :=
  match transaction
          (category_update id (if truthy name then name else None)) db with
  | (db', inr category) => (db', json_ok (JObj (categoryRow id category)))
  | (db', inl (PrismaError "P2002" _)) =>
      (db', json_error 400 "Category with this name already exists")
  | (db', inl (PrismaError "P2025" _)) => (db', json_error 404 "Category not found")
  | (db', inl _) => (db', json_error 500 "Failed to update category")
  end.

(** DELETE /:id *)
Definition deleteCategory (id : string) (db : DB) : DB * Response.t :=
  (* Check if category has items *)
  let itemCount := count (items db) (λ i, Item.categoryId i = id) in
  if decide (0 < itemCount)%nat then
    (db, json_error 400
           ("Cannot delete category with " +:+ pretty itemCount +:+ " item(s)"))
  else
    match transaction (category_delete id) db with
    | (db', inr _) =>
        (db', json_ok (JObj [("message", JStr "Category deleted successfully")]))
    | (db', inl (PrismaError "P2025" _)) => (db', json_error 404 "Category not found")
    | (db', inl _) => (db', json_error 500 "Failed to delete category")
    end.

(** * The finances router: PUT and DELETE /expenses/:id *)

Module ExpenseData.
Record t := mk {
  description : option string; amount : option Z; category : option string;
  expenseDate : option Z }.

Definition apply (d : t) (e : Expense.t) : Expense.t :=
  Expense.mk (default (Expense.description e) (description d))
    (default (Expense.amount e) (amount d))
    (default (Expense.category e) (category d))
    (default (Expense.expenseDate e) (expenseDate d)).
End ExpenseData.

Definition expense_update (id : string) (data : ExpenseData.t) : Tx Expense.t :=
  λ db,
  match expenses db !! id with
  | None => inl P2025
  | Some e =>
      let e' := ExpenseData.apply data e in
      inr (set_expenses <[id := e']> db, e')
  end.

Definition expense_delete (id : string) : Tx unit := λ db,
  match expenses db !! id with
  | None => inl P2025
  | Some _ => inr (set_expenses (delete id) db, tt)
  end.

Definition expenseRow (id : string) (e : Expense.t) : obj :=
  [("id", JStr id); ("description", JStr (Expense.description e));
   ("amount", JNum (Expense.amount e)); ("category", JStr (Expense.category e));
   ("expenseDate", JNum (Expense.expenseDate e))].

(** PUT /expenses/:id: [...(amount && { amount: parseFloat(amount) })] and
    the like, so a falsy value leaves the column as it is. *)
Definition updateExpense (user : User.t) (id : string)
    (description : option string) (amount : option Z)
    (category : option string) (expenseDate : option Z)
    : DB → DB * Response.t :=
  requireAdmin user (λ db,
  let data :=
    ExpenseData.mk (if truthy description then description else None)
      (match amount with Some 0 => None | _ => amount end)
      (if truthy category then category else None) expenseDate in
  match transaction (expense_update id data) db with
  | (db', inr expense) => (db', json_ok (JObj (expenseRow id expense)))
  | (db', inl (PrismaError "P2025" _)) => (db', json_error 404 "Expense not found")
  | (db', inl _) => (db', json_error 500 "Failed to update expense")
  end).

(** DELETE /expenses/:id *)
Definition deleteExpense (user : User.t) (id : string) : DB → DB * Response.t :=
  requireAdmin user (λ db,
  match transaction (expense_delete id) db with
  | (db', inr _) =>
      (db', json_ok (JObj [("message", JStr "Expense deleted successfully")]))
  | (db', inl (PrismaError "P2025" _)) => (db', json_error 404 "Expense not found")
  | (db', inl _) => (db', json_error 500 "Failed to delete expense")
  end).

(** * The dashboard router ([./routes/dashboard]; in the source tree it
      follows the customers router in routes/customers.js) *)

(** GET /staff *)
Definition getStaffDashboard (db : DB) : DB * Response.t :=
  let totalItems := count (items db) (λ _, True) in
  let availableItems := count (items db) (λ i, Item.status i = AVAILABLE) in
  let activeRentals := count (rentals db) (λ r, Rental.status r = ACTIVE) in
  let maintenanceItems := count (items db) (λ i, Item.status i = MAINTENANCE) in
  (db, json_ok (JObj
    [("totalItems", JNum (Z.of_nat totalItems));
     ("availableItems", JNum (Z.of_nat availableItems));
     ("activeRentals", JNum (Z.of_nat activeRentals));
     ("maintenanceItems", JNum (Z.of_nat maintenanceItems))])).

(** GET /activity *)
Definition getActivity (user : User.t) (db : DB) : DB * Response.t :=
  let recentRentals :=
    (λ r, rentalWith customer_item_user db r.1 r.2)
    <$> take 10 (findMany (rentals db) (λ _, True) (desc Rental.createdAt)) in
  let response :=
    if decide (User.role user = STAFF) then
      omit ["dailyRate"; "numberOfDays"; "subtotal"; "deposit"; "discount";
            "totalAmount"; "amountPaid"; "amountDue"; "paymentStatus"]
      <$> recentRentals
    else recentRentals in
  (db, json_ok (JArr (JObj <$> response))).

(** GET /low-stock: [parseInt(req.query.threshold) || 5], with [None] for a
    threshold that is absent or does not parse. *)
Definition lowStockThreshold (threshold : option Z) : Z :=
  match threshold with
  | None | Some 0 => 5
  | Some t => t
  end.

Definition lowStockItems (threshold : option Z) (db : DB) : list (string * Item.t) :=
  findMany (items db)
    (λ i, Item.quantity i ≤ lowStockThreshold threshold ∧ Item.status i ≠ RETIRED)
    (asc Item.quantity).

Definition getLowStock (threshold : option Z) (db : DB) : DB * Response.t :=
  (db, json_ok (JArr
    ((λ i, JObj (itemRow i.1 i.2
                 ++ [("category", JOpt (λ c, JObj (categoryRow (Item.categoryId i.2) c))
                                       (categories db !! Item.categoryId i.2))]))
     <$> lowStockItems threshold db))).

(** * The web client: lib/store/authStore.ts, components/ProtectedRoute.tsx
      and app/page.tsx *)

Module AuthState.
Record t := mk { user : option User.t; token : option string }.
End AuthState.

Definition isAdmin (s : AuthState.t) : bool :=
  bool_decide (User.role <$> AuthState.user s = Some ADMIN).

Definition isStaff (s : AuthState.t) : bool :=
  let role := User.role <$> AuthState.user s in
  bool_decide (role = Some STAFF) || bool_decide (role = Some ADMIN).

Definition isAuthenticated (s : AuthState.t) : bool :=
  truthy (AuthState.token s) && bool_decide (is_Some (AuthState.user s)).


Inductive Rendered := Spinner | AccessDenied | Children.

(** What [ProtectedRoute] renders, and where its effect pushes the router. *)
Definition ProtectedRoute_render (requireAdmin : bool) (s : AuthState.t) : Rendered :=
  if negb (isAuthenticated s) then Spinner
  else if requireAdmin && negb (isAdmin s) then AccessDenied
  else Children.


(** Where [HomePage] pushes the router. *)
Definition HomePage_push (s : AuthState.t) : string :=
  if negb (isAuthenticated s) then "/login"
  else if bool_decide (User.role <$> AuthState.user s = Some ADMIN)
       then "/admin/dashboard"
       else "/staff/dashboard".

(** * All writing requests, as one type *)

Inductive Operation :=
| RentalRequest (req : Request)
| CreateMaintenance (user : User.t) (now : Z) (newId : string)
    (itemId description : option string) (cost : option Z)
| UpdateMaintenance (user : User.t) (id : string) (description : option string)
    (status : option MaintenanceStatus) (cost : option Z)
| CompleteMaintenance (user : User.t) (now : Z) (id : string)
| DeleteMaintenance (id : string)
| DeleteCustomer (id : string)
| DeleteItem (id : string)
| CreateCategory (newId : string) (name : option string)
| UpdateCategory (id : string) (name : option string)
| DeleteCategory (id : string)
| CreateExpense (user : User.t) (now : Z) (newId : string)
    (description : option string) (amount : option Z) (category : option string)
    (expenseDate : option Z)
| UpdateExpense (user : User.t) (id : string) (description : option string)
    (amount : option Z) (category : option string) (expenseDate : option Z)
| DeleteExpense (user : User.t) (id : string).

Definition run (op : Operation)
    : DB → DB * Response.t :=
  match op with
  | RentalRequest req => handle req
  | CreateMaintenance user now newId itemId description cost =>
      createMaintenance user now newId itemId description cost
  | UpdateMaintenance user id description status cost =>
      updateMaintenance user id description status cost
  | CompleteMaintenance user now id => completeMaintenance user now id
  | DeleteMaintenance id => deleteMaintenance id
  | DeleteCustomer id => deleteCustomer id
  | DeleteItem id => deleteItem id
  | CreateCategory newId name => createCategory newId name
  | UpdateCategory id name => updateCategory id name
  | DeleteCategory id => deleteCategory id
  | CreateExpense user now newId description amount category expenseDate =>
      createExpense user now newId description amount category expenseDate
  | UpdateExpense user id description amount category expenseDate =>
      updateExpense user id description amount category expenseDate
  | DeleteExpense user id => deleteExpense user id
  end.

(** * Further properties of the store and of payloads *)

(** The records of a payload: the elements of an array, or the payload
    itself. *)
Definition records (j : json) : list json :=
  match j with JArr xs => xs | _ => [j] end.

(** The user on whose behalf a rental request is made. *)
Definition requester (req : Request) : User.t :=
  match req with
  | CreateRental user _ _ _ _ _ _ _ _ _ => user
  | UpdateRental user _ _ _ _ _ => user
  | ReturnItem user _ _ => user
  | GetOverdueRentals user _ => user
  | RecordPayment user _ _ _ _ _ _ _ => user
  | DeletePayment user _ => user
  end.

(** No item has a negative quantity. *)
Definition stocked (db : DB) : Prop :=
  map_Forall (λ _ i, 0 ≤ Item.quantity i) (items db).

#[global] Instance stocked_dec db : Decision (stocked db).
Proof. unfold stocked. apply _. Defined.

(** The payments recorded against a rental add up to its amountPaid, every
    payment is positive and belongs to a stored rental. *)
Definition paidFor (db : DB) (rentalId : string) : Z :=
  sum ((λ p, Payment.amount p.2) <$> paymentsOf db rentalId).

Definition ledgerConsistent (db : DB) : Prop :=
  map_Forall (λ id r, Rental.amountPaid r = paidFor db id) (rentals db) ∧
  map_Forall (λ _ p, 0 < Payment.amount p ∧ is_Some (rentals db !! Payment.rentalId p))
             (payments db).

#[global] Instance ledgerConsistent_dec db : Decision (ledgerConsistent db).
Proof. unfold ledgerConsistent. apply _. Defined.

(** Every reference of a row points to a stored row. *)
Definition wellReferenced (db : DB) : Prop :=
  map_Forall (λ _ r, is_Some (customers db !! Rental.customerId r) ∧
                     is_Some (items db !! Rental.itemId r)) (rentals db) ∧
  map_Forall (λ _ p, is_Some (rentals db !! Payment.rentalId p)) (payments db) ∧
  map_Forall (λ _ m, is_Some (items db !! Maintenance.itemId m)) (maintenances db) ∧
  map_Forall (λ _ i, is_Some (categories db !! Item.categoryId i)) (items db).

#[global] Instance wellReferenced_dec db : Decision (wellReferenced db).
Proof. unfold wellReferenced. apply _. Defined.

(** No two categories share a name. *)
Definition uniqueNames (db : DB) : Prop :=
  map_Forall (λ id1 c1,
    map_Forall (λ id2 c2, Category.name c1 = Category.name c2 → id1 = id2)
               (categories db))
    (categories db).

#[global] Instance uniqueNames_dec db : Decision (uniqueNames db).
Proof. unfold uniqueNames. apply _. Defined.

(** A response that reports success. *)
Definition succeeded (res : Response.t) : Prop :=
  Response.code res = 200 ∨ Response.code res = 201.

(** * Further properties of rows, payloads and stores used in the statements *)

(** A record of a payload carries none of the nine financial fields of a
    rental, nor [payments]; none of the nine; no [cost]. *)
Definition redacted (j : json) : Prop :=
  exposed (rentalFinancialFields ++ ["payments"]) j = [].
Definition nineHidden (j : json) : Prop := exposed rentalFinancialFields j = [].
Definition costHidden (j : json) : Prop := exposed maintenanceFinancialFields j = [].

(** The [data] of the item updates of the maintenance router, the row that
    POST /maintenance stores, a record as PUT /:id/complete leaves it, and the
    [data] of PUT /maintenance/:id. *)
Definition enterMaintenance : ItemData.t := ItemData.mk (Some MAINTENANCE) None.
Definition exitMaintenance : ItemData.t := ItemData.mk (Some AVAILABLE) None.

Definition newMaintenanceRow (user : User.t) (now : Z) (iid desc : string)
    (cost : option Z) : Maintenance.t :=
  Maintenance.mk iid desc
    (if decide (User.role user = ADMIN) then default 0 cost else 0)
    MAINT_PENDING now None now.

Definition completed (now : Z) (m : Maintenance.t) : Maintenance.t :=
  Maintenance.mk (Maintenance.itemId m) (Maintenance.description m)
    (Maintenance.cost m) MAINT_COMPLETED (Maintenance.startDate m) (Some now)
    (Maintenance.createdAt m).

Definition maintenanceUpdate (user : User.t) (description : option string)
    (status : option MaintenanceStatus) (cost : option Z) : MaintenanceData.t :=
  MaintenanceData.mk (if truthy description then description else None) status
    (if decide (User.role user = ADMIN) then cost else None).

(** An item with another status and every other column as it is. *)
Definition withStatus (s : ItemStatus) (i : Item.t) : Item.t :=
  Item.mk (Item.name i) (Item.categoryId i) s (Item.dailyRate i) (Item.quantity i)
    (Item.createdAt i).

(** The sample store with a maintenance record opened for the drill. *)
Definition db_serviced : DB :=
  (createMaintenance admin date_2026_02_20 "m-1" (Some "i-drill")
     (Some "Replace chuck") (Some 40) db0).1.

(** The three sums of the summary. *)
Definition revenueIn (startDate endDate : option Z) (db : DB) : Z :=
  sum ((λ p, Payment.amount p.2)
       <$> filter (λ p, inPeriod startDate endDate (Payment.paymentDate p.2))
                  (rows (payments db))).

Definition expensesIn (startDate endDate : option Z) (db : DB) : Z :=
  sum ((λ e, Expense.amount e.2)
       <$> filter (λ e, inPeriod startDate endDate (Expense.expenseDate e.2))
                  (rows (expenses db))).

Definition outstandingDue (db : DB) : Z :=
  sum ((λ r, Rental.amountDue r.2) <$> filter (λ r, outstanding r.2) (rows (rentals db))).

(** * What each handler does to the store *)

Lemma createRental_success user now newId customerId itemId startDate endDate
    deposit discount notes db :
  let res := createRental user now newId customerId itemId startDate endDate
               deposit discount notes db in
  Response.code res.2 = 201 →
  ∃ cid iid start end_ item,
    customerId = Some cid ∧ itemId = Some iid ∧
    startDate = Some start ∧ endDate = Some end_ ∧ start < end_ ∧
    items db !! iid = Some item ∧ Item.status item = AVAILABLE ∧
    1 ≤ Item.quantity item ∧ is_Some (customers db !! cid) ∧
    rentals db !! newId = None ∧
    res.1 = set_items <[iid := ItemData.apply reserveUnit item]>
              (set_rentals <[newId := newRentalRow user now cid iid start end_
                                        deposit discount notes item]> db).
Proof.
  unfold createRental.
  destruct customerId as [cid|], itemId as [iid|], startDate as [start|],
    endDate as [end_|]; try discriminate.
  destruct (negb _); [discriminate|].
  destruct (Z.leb_spec end_ start); [discriminate|].
  destruct (items db !! iid) as [item|] eqn:Hitem; [|discriminate].
  destruct (bool_decide_reflect (Item.status item = AVAILABLE)); [|discriminate].
  destruct (Z.ltb_spec (Item.quantity item) 1); [discriminate|]. cbn [negb orb].
  destruct (customers db !! cid) as [customer|] eqn:Hcust; [|discriminate].
  unfold transaction, tx_bind, rental_create, tx_gets, item_update, tx_ret.
  destruct (rentals db !! newId) eqn:Hfresh; [discriminate|].
  cbn [items set_rentals]. rewrite Hitem. intros _.
  exists cid, iid, start, end_, item. repeat split; eauto.
Qed.

Lemma createRental_failure user now newId customerId itemId startDate endDate
    deposit discount notes db :
  let res := createRental user now newId customerId itemId startDate endDate
               deposit discount notes db in
  Response.code res.2 ≠ 201 → res.1 = db.
Proof.
  unfold createRental, transaction.
  repeat case_match; simplify_eq/=; congruence.
Qed.

Lemma updateRental_cases user id startDate endDate status notes db :
  let res := updateRental user id startDate endDate status notes db in
  (res.1 = db ∧ Response.code res.2 ≠ 200) ∨
  (∃ r, rentals db !! id = Some r ∧ Response.code res.2 = 200 ∧
        res.1 = set_rentals
                  <[id := RentalData.apply
                            (updateRentalData r startDate endDate status notes) r]> db).
Proof.
  unfold updateRental.
  destruct (rentals db !! id) as [r|] eqn:Hr; [|left; done].
  unfold updateRentalData.
  destruct (bool_decide _).
  - destruct (Z.leb_spec (default (Rental.endDate r) endDate)
                         (default (Rental.startDate r) startDate)); [left; done|].
    right. exists r. split; [done|].
    unfold transaction, tx_bind, rental_update, tx_gets. rewrite Hr. cbn.
    split; [done|]. do 2 f_equal.
    unfold RentalData.spread, datesData, RentalData.over. cbn.
    by destruct status, notes.
  - right. exists r. split; [done|].
    unfold transaction, tx_bind, rental_update, tx_gets. rewrite Hr. cbn.
    split; [done|]. do 2 f_equal. unfold RentalData.spread, RentalData.over. cbn.
    by destruct status, notes.
Qed.

Lemma returnItem_cases user now id db :
  let res := returnItem user now id db in
  (res.1 = db ∧ Response.code res.2 = 500) ∨
  (∃ r item, rentals db !! id = Some r ∧ Rental.status r ≠ COMPLETED ∧
        items db !! Rental.itemId r = Some item ∧
        Response.code res.2 = 200 ∧
        res.1 = set_items <[Rental.itemId r := ItemData.apply releaseUnit item]>
                  (set_rentals <[id := RentalData.apply (returnData now) r]> db)).
Proof.
  unfold returnItem, transaction, tx_bind, rental_findUnique, tx_gets.
  destruct (rentals db !! id) as [r|] eqn:Hr; [|left; done].
  destruct (decide (Rental.status r = COMPLETED)); [left; done|].
  unfold rental_update, item_update, tx_ret. rewrite Hr. cbn.
  destruct (items db !! Rental.itemId r) as [item|] eqn:Hitem; [|left; done].
  right. exists r, item. done.
Qed.

Lemma getOverdueRentals_db user now db :
  (getOverdueRentals user now db).1 = swept now db.
Proof. reflexivity. Qed.

Lemma recordPayment_success user now newId rentalId amount paymentMethod
    reference notes db :
  let res := recordPayment user now newId rentalId amount paymentMethod
               reference notes db in
  Response.code res.2 = 201 →
  ∃ rid amt method r,
    User.role user = ADMIN ∧
    rentalId = Some rid ∧ amount = Some amt ∧ paymentMethod = Some method ∧
    rentals db !! rid = Some r ∧ 0 < amt ≤ Rental.amountDue r ∧
    payments db !! newId = None ∧
    res.1 = set_rentals
              <[rid := RentalData.apply (paymentData r (Rental.amountPaid r + amt)) r]>
              (set_payments
                 <[newId := Payment.mk rid amt method now reference notes]> db).
Proof.
  unfold recordPayment, requireAdmin.
  destruct (decide (User.role user ≠ ADMIN)) as [|Hrole]; [discriminate|].
  apply dec_stable in Hrole.
  destruct rentalId as [rid|], amount as [amt|], paymentMethod as [method|];
    try discriminate.
  destruct (negb _ || _); [discriminate|].
  destruct (rentals db !! rid) as [r|] eqn:Hr; [|discriminate].
  destruct (Z.leb_spec amt 0); [discriminate|].
  destruct (Z.ltb_spec (Rental.amountDue r) amt); [discriminate|].
  unfold transaction, tx_bind, payment_create, tx_gets, rental_update, tx_ret.
  destruct (payments db !! newId) eqn:Hfresh; [discriminate|].
  cbn. rewrite Hr. cbn. intros _.
  exists rid, amt, method, r. repeat split; eauto.
Qed.

Lemma recordPayment_failure user now newId rentalId amount paymentMethod
    reference notes db :
  let res := recordPayment user now newId rentalId amount paymentMethod
               reference notes db in
  Response.code res.2 ≠ 201 → res.1 = db.
Proof.
  unfold recordPayment, requireAdmin, transaction.
  repeat case_match; simplify_eq/=; congruence.
Qed.

Lemma deletePayment_cases user id db :
  let res := deletePayment user id db in
  (res.1 = db ∧ Response.code res.2 ≠ 200) ∨
  (∃ p r, User.role user = ADMIN ∧ payments db !! id = Some p ∧
        rentals db !! Payment.rentalId p = Some r ∧
        Response.code res.2 = 200 ∧
        res.1 = set_rentals
                  <[Payment.rentalId p := RentalData.apply
                       (paymentData r (Rental.amountPaid r - Payment.amount p)) r]>
                  (set_payments (delete id) db)).
Proof.
  unfold deletePayment, requireAdmin.
  destruct (decide (User.role user ≠ ADMIN)) as [|Hrole]; [left; done|].
  apply dec_stable in Hrole.
  unfold transaction, tx_bind, payment_findUnique, rental_findUnique, tx_gets.
  destruct (payments db !! id) as [p|] eqn:Hp; [|left; done].
  unfold payment_delete. rewrite Hp.
  destruct (rentals db !! Payment.rentalId p) as [r|] eqn:Hr; [|left; done].
  unfold rental_update, tx_ret. cbn [rentals set_payments]. rewrite Hr.
  right. exists p, r. done.
Qed.

(** * The sample stores *)

Example db1_contents :
  rentals db1 !! "r-1" = Some rental1 ∧
  (Item.status <$> items db1 !! "i-drill", Item.quantity <$> items db1 !! "i-drill")
  = (Some AVAILABLE, Some 5) ∧
  (Payment.amount <$> payments db1 !! "p-1") = Some 130 ∧
  (Maintenance.cost <$> maintenances db1 !! "m-1") = Some 40.
Proof. vm_compute. done. Qed.

Example db_extended_contents :
  ledger <$> rentals db_rented !! "r-2" = Some (0, 130, UNPAID) ∧
  ledger <$> rentals db_paid !! "r-2" = Some (130, 0, PAID) ∧
  (Rental.numberOfDays <$> rentals db_extended !! "r-2",
   Rental.totalAmount <$> rentals db_extended !! "r-2") = (Some 7, Some 145) ∧
  ledger <$> rentals db_extended !! "r-2" = Some (130, 15, PAID).
Proof. vm_compute. done. Qed.

(** * The claims *)

Lemma ceil_div_bounds a b :
  0 < b → b * (ceil_div a b - 1) < a ≤ b * ceil_div a b.
Proof.
  intros Hb. unfold ceil_div.
  pose proof (Z.mul_div_le (- a) b Hb).
  pose proof (Z.mul_succ_div_gt (- a) b Hb). lia.
Qed.

Lemma returnItem_ok user now id db r item :
  rentals db !! id = Some r → Rental.status r ≠ COMPLETED →
  items db !! Rental.itemId r = Some item →
  let res := returnItem user now id db in
  res.1 = set_items <[Rental.itemId r := ItemData.apply releaseUnit item]>
            (set_rentals <[id := RentalData.apply (returnData now) r]> db)
  ∧ Response.code res.2 = 200.
Proof.
  intros Hr Hst Hitem.
  destruct (returnItem_cases user now id db)
    as [[_ Hcode]|(r' & item' & Hr' & _ & Hitem' & Hcode & Hdb)]; simplify_eq/=.
  - exfalso. revert Hcode.
    unfold returnItem, transaction, tx_bind, rental_findUnique, tx_gets.
    rewrite Hr. destruct (decide (Rental.status r = COMPLETED)); [done|].
    unfold rental_update, item_update, tx_ret. rewrite Hr. cbn. rewrite Hitem.
    discriminate.
  - done.
Qed.

(** C7.  On a successful createRental (201) the stored rental carries the
    financial snapshot: [dailyRate] is copied from the item, [numberOfDays] is
    the ceiling of (endDate - startDate) / one day (the least [n] with
    [endDate - startDate <= n] days), [subtotal = dailyRate * numberOfDays],
    [totalAmount = subtotal + deposit - discount], [amountPaid = 0],
    [amountDue = totalAmount] and [paymentStatus = UNPAID].  In particular,
    with dailyRate 15, 2026-02-14 to 2026-02-20, deposit 50 and discount 10
    the rental has numberOfDays 6, subtotal 90, totalAmount 130 and
    amountDue 130. *)
Theorem createRental_financial_snapshot :
  (∀ user now newId customerId itemId startDate endDate deposit discount notes db,
     let res := createRental user now newId customerId itemId startDate endDate
                  deposit discount notes db in
     Response.code res.2 = 201 →
     ∃ iid start end_ item r,
       itemId = Some iid ∧ startDate = Some start ∧ endDate = Some end_ ∧
       items db !! iid = Some item ∧ rentals res.1 !! newId = Some r ∧
       Rental.dailyRate r = Item.dailyRate item ∧
       MS_PER_DAY * (Rental.numberOfDays r - 1) < end_ - start
         ≤ MS_PER_DAY * Rental.numberOfDays r ∧
       Rental.subtotal r = Rental.dailyRate r * Rental.numberOfDays r ∧
       Rental.deposit r = default 0 deposit ∧
       Rental.discount r = default 0 discount ∧
       Rental.totalAmount r = Rental.subtotal r + Rental.deposit r - Rental.discount r ∧
       Rental.amountPaid r = 0 ∧
       Rental.amountDue r = Rental.totalAmount r ∧
       Rental.paymentStatus r = UNPAID)
  ∧
  (∀ user now newId customerId iid notes db item,
     items db !! iid = Some item → Item.dailyRate item = 15 →
     let res := createRental user now newId customerId (Some iid)
                  (Some date_2026_02_14) (Some date_2026_02_20)
                  (Some 50) (Some 10) notes db in
     Response.code res.2 = 201 →
     ∃ r, rentals res.1 !! newId = Some r ∧
          Rental.numberOfDays r = 6 ∧ Rental.subtotal r = 90 ∧
          Rental.totalAmount r = 130 ∧ Rental.amountDue r = 130).
Proof.
  split.
  - intros user now newId customerId itemId startDate endDate deposit discount
      notes db res Hok.
    destruct (createRental_success _ _ _ _ _ _ _ _ _ _ _ Hok)
      as (cid & iid & start & end_ & item & -> & -> & -> & -> & Hlt & Hitem & _ & _
          & _ & _ & Hdb).
    exists iid, start, end_, item,
      (newRentalRow user now cid iid start end_ deposit discount notes item).
    fold res in Hdb. rewrite Hdb. cbn [rentals set_items set_rentals].
    rewrite lookup_insert_eq. cbn.
    pose proof (ceil_div_bounds (end_ - start) MS_PER_DAY eq_refl).
    repeat split; auto; lia.
  - intros user now newId customerId iid notes db item Hitem Hrate res Hok.
    destruct (createRental_success _ _ _ _ _ _ _ _ _ _ _ Hok)
      as (cid & iid' & start & end_ & item' & _ & [= <-] & [= <-] & [= <-] & _
          & Hitem' & _ & _ & _ & _ & Hdb).
    assert (item' = item) as -> by congruence.
    fold res in Hdb. rewrite Hdb. cbn [rentals set_items set_rentals].
    rewrite lookup_insert_eq. eexists; split; [reflexivity|].
    cbn. rewrite Hrate. change (ceil_div _ _) with 6. lia.
Qed.

Lemma createRental_financial_snapshot_witness :
  let res := createRental staff date_2026_02_14 "r-2" (Some "c-alice")
               (Some "i-drill") (Some date_2026_02_14) (Some date_2026_02_20)
               (Some 50) (Some 10) None db0 in
  (∃ iid start end_ item r,
     Some "i-drill" = Some iid ∧ Some date_2026_02_14 = Some start ∧
     Some date_2026_02_20 = Some end_ ∧
     items db0 !! iid = Some item ∧ rentals res.1 !! "r-2" = Some r ∧
     Rental.dailyRate r = Item.dailyRate item ∧
     MS_PER_DAY * (Rental.numberOfDays r - 1) < end_ - start
       ≤ MS_PER_DAY * Rental.numberOfDays r ∧
     Rental.subtotal r = Rental.dailyRate r * Rental.numberOfDays r ∧
     Rental.deposit r = 50 ∧ Rental.discount r = 10 ∧
     Rental.totalAmount r = Rental.subtotal r + Rental.deposit r - Rental.discount r ∧
     Rental.amountPaid r = 0 ∧
     Rental.amountDue r = Rental.totalAmount r ∧
     Rental.paymentStatus r = UNPAID)
  ∧
  (∃ r, rentals res.1 !! "r-2" = Some r ∧
        Rental.numberOfDays r = 6 ∧ Rental.subtotal r = 90 ∧
        Rental.totalAmount r = 130 ∧ Rental.amountDue r = 130).
Proof.
  split.
  - apply (proj1 createRental_financial_snapshot staff date_2026_02_14 "r-2"
             (Some "c-alice") (Some "i-drill") (Some date_2026_02_14)
             (Some date_2026_02_20) (Some 50) (Some 10) None db0).
    vm_compute. reflexivity.
  - apply (proj2 createRental_financial_snapshot staff date_2026_02_14 "r-2"
             (Some "c-alice") "i-drill" None db0 drill); vm_compute; reflexivity.
Defined.

(** C3.  Given an AVAILABLE item with quantity [q] (the claim's instance is
    [q = 5]), a successful createRental leaves it RENTED with quantity
    [q - 1] (4), whatever remains, and returnItem on the rental just created
    succeeds and leaves it AVAILABLE with quantity [q] (5). *)
Theorem createRental_returnItem_item user now newId customerId iid startDate
    endDate deposit discount notes user' now' db item q :
  items db !! iid = Some item →
  Item.status item = AVAILABLE → Item.quantity item = q →
  let created := createRental user now newId customerId (Some iid) startDate
                   endDate deposit discount notes db in
  Response.code created.2 = 201 →
  let returned := returnItem user' now' newId created.1 in
  ∃ item1 item2,
    items created.1 !! iid = Some item1 ∧
    Item.status item1 = RENTED ∧ Item.quantity item1 = q - 1 ∧
    Response.code returned.2 = 200 ∧
    items returned.1 !! iid = Some item2 ∧
    Item.status item2 = AVAILABLE ∧ Item.quantity item2 = q.
Proof.
  intros Hitem Hst Hq created Hok returned.
  destruct (createRental_success _ _ _ _ _ _ _ _ _ _ _ Hok)
    as (cid & iid' & start & end_ & item' & _ & [= <-] & _ & _ & _
        & Hitem' & _ & _ & _ & _ & Hdb).
  assert (item' = item) as -> by congruence.
  fold created in Hdb.
  assert (Hr : rentals created.1 !! newId
               = Some (newRentalRow user now cid iid start end_ deposit discount
                         notes item)).
  { rewrite Hdb. cbn. apply lookup_insert_eq. }
  assert (Hi : items created.1 !! iid = Some (ItemData.apply reserveUnit item)).
  { rewrite Hdb. cbn. apply lookup_insert_eq. }
  destruct (returnItem_ok user' now' newId created.1 _ _ Hr ltac:(done) Hi)
    as [Hdb' Hcode].
  eexists _, _. split; [exact Hi|]. split; [done|]. split; [cbn; lia|].
  split; [exact Hcode|]. fold returned in Hdb'. rewrite Hdb'. cbn.
  rewrite lookup_insert_eq. split; [done|]. split; [done|]. cbn. lia.
Qed.

Lemma createRental_returnItem_item_witness :
  let created := createRental staff 1000 "r-2" (Some "c-alice") (Some "i-drill")
                   (Some date_2026_02_14) (Some date_2026_02_20) None None None
                   db0 in
  let returned := returnItem staff 2000 "r-2" created.1 in
  ∃ item1 item2,
    items created.1 !! "i-drill" = Some item1 ∧
    Item.status item1 = RENTED ∧ Item.quantity item1 = 5 - 1 ∧
    Response.code returned.2 = 200 ∧
    items returned.1 !! "i-drill" = Some item2 ∧
    Item.status item2 = AVAILABLE ∧ Item.quantity item2 = 5.
Proof.
  apply (createRental_returnItem_item staff 1000 "r-2" (Some "c-alice") "i-drill"
           (Some date_2026_02_14) (Some date_2026_02_20) None None None
           staff 2000 db0 drill 5); vm_compute; reflexivity.
Defined.

(** C10.  updateRental never touches the Item table: whatever the arguments
    (a status of CANCELLED included) and whether or not the update goes
    through, every item row, with its status and quantity, is as before. *)
Theorem updateRental_leaves_items user id startDate endDate status notes db :
  items (updateRental user id startDate endDate status notes db).1 = items db.
Proof.
  destruct (updateRental_cases user id startDate endDate status notes db)
    as [[-> _]|(r & _ & _ & ->)]; reflexivity.
Qed.

Lemma balanced_newRentalRow user now cid iid start end_ deposit discount notes item :
  balanced (newRentalRow user now cid iid start end_ deposit discount notes item).
Proof. unfold balanced. cbn. lia. Qed.

Lemma balanced_updateRentalData r startDate endDate status notes :
  balanced r →
  balanced (RentalData.apply (updateRentalData r startDate endDate status notes) r).
Proof.
  unfold balanced, updateRentalData. destruct (bool_decide _); cbn; lia.
Qed.

Lemma balanced_paymentData r newAmountPaid :
  balanced (RentalData.apply (paymentData r newAmountPaid) r).
Proof. unfold balanced. cbn. lia. Qed.

Lemma balanced_returnData r now :
  balanced r → balanced (RentalData.apply (returnData now) r).
Proof. done. Qed.

Lemma balanced_overdueData r :
  balanced r → balanced (RentalData.apply overdueData r).
Proof. done. Qed.

(** C2.  The balance equation amountDue + amountPaid = totalAmount is an
    invariant of the store: if every rental satisfies it, then every rental
    satisfies it after any request that writes rentals, that is createRental,
    updateRental (with or without a date change), recordPayment and
    deletePayment, and also returnItem and the overdue sweep.  Money is exact
    here, so the equation holds without a tolerance. *)
Theorem balance_invariant req db :
  all_balanced db → all_balanced (handle req db).1.
Proof.
  unfold all_balanced. intros Hinv.
  destruct req as [user now newId customerId itemId startDate endDate deposit
                     discount notes
                  |user id startDate endDate status notes
                  |user now id
                  |user now
                  |user now newId rentalId amount paymentMethod reference notes
                  |user id]; cbn [handle].
  - destruct (decide (Response.code
        (createRental user now newId customerId itemId startDate endDate deposit
           discount notes db).2 = 201)) as [Hok|Hko].
    + destruct (createRental_success _ _ _ _ _ _ _ _ _ _ _ Hok)
        as (cid & iid & start & end_ & item & _ & _ & _ & _ & _ & _ & _ & _ & _ & _ & ->).
      cbn. apply map_Forall_insert_2; [apply balanced_newRentalRow|done].
    + by rewrite (createRental_failure _ _ _ _ _ _ _ _ _ _ _ Hko).
  - destruct (updateRental_cases user id startDate endDate status notes db)
      as [[-> _]|(r & Hr & _ & ->)]; [done|].
    cbn. apply map_Forall_insert_2; [|done].
    apply balanced_updateRentalData. exact (Hinv _ _ Hr).
  - destruct (returnItem_cases user now id db)
      as [[-> _]|(r & item & Hr & _ & _ & _ & ->)]; [done|].
    cbn. apply map_Forall_insert_2; [|done].
    apply balanced_returnData. exact (Hinv _ _ Hr).
  - rewrite getOverdueRentals_db. cbn. apply map_Forall_fmap.
    intros id r Hr. cbn. specialize (Hinv _ _ Hr). cbn in Hinv.
    destruct (decide _); [|done]. by apply balanced_overdueData.
  - destruct (decide (Response.code
        (recordPayment user now newId rentalId amount paymentMethod reference
           notes db).2 = 201)) as [Hok|Hko].
    + destruct (recordPayment_success _ _ _ _ _ _ _ _ _ Hok)
        as (rid & amt & method & r & _ & _ & _ & _ & _ & _ & _ & ->).
      cbn. apply map_Forall_insert_2; [apply balanced_paymentData|done].
    + by rewrite (recordPayment_failure _ _ _ _ _ _ _ _ _ Hko).
  - destruct (deletePayment_cases user id db)
      as [[-> _]|(p & r & _ & _ & _ & _ & ->)]; [done|].
    cbn. apply map_Forall_insert_2; [apply balanced_paymentData|done].
Qed.

Lemma balance_invariant_witness :
  all_balanced
    (handle (UpdateRental staff "r-1" None (Some date_2026_02_21) None None) db1).1.
Proof.
  apply (balance_invariant
           (UpdateRental staff "r-1" None (Some date_2026_02_21) None None) db1).
  apply (bool_decide_unpack (all_balanced db1)). vm_compute. exact I.
Defined.


Lemma paymentStatusOf_cases paid total :
  (paymentStatusOf paid total = PAID ↔ total ≤ paid) ∧
  (paymentStatusOf paid total = PARTIAL ↔ 0 < paid < total) ∧
  (paymentStatusOf paid total = UNPAID ↔ paid ≤ 0 ∧ paid < total).
Proof.
  unfold paymentStatusOf.
  destruct (Z.leb_spec total paid), (Z.ltb_spec 0 paid);
    repeat split; intros; try done; lia.
Qed.

(** C4.  recordPayment fails, leaving the store (and so the rental) as it
    is, when the amount exceeds the rental's amountDue.  When it succeeds
    (201) the amount was positive and at most amountDue, amountPaid has grown
    by the amount, amountDue is totalAmount minus the new amountPaid, and
    paymentStatus is PAID exactly when the new amountPaid has reached
    totalAmount, PARTIAL exactly when it is strictly between 0 and
    totalAmount, and UNPAID exactly in the remaining case (not above 0 and
    below totalAmount). *)
Theorem recordPayment_bound_and_status :
  (∀ user now newId rid amt paymentMethod reference notes db r,
     rentals db !! rid = Some r → Rental.amountDue r < amt →
     let res := recordPayment user now newId (Some rid) (Some amt) paymentMethod
                  reference notes db in
     res.1 = db ∧
     Response.code res.2 = (if decide (User.role user = ADMIN) then 400 else 403))
  ∧
  (∀ user now newId rentalId amount paymentMethod reference notes db,
     let res := recordPayment user now newId rentalId amount paymentMethod
                  reference notes db in
     Response.code res.2 = 201 →
     ∃ rid amt r r',
       rentalId = Some rid ∧ amount = Some amt ∧
       rentals db !! rid = Some r ∧ 0 < amt ≤ Rental.amountDue r ∧
       rentals res.1 !! rid = Some r' ∧
       Rental.totalAmount r' = Rental.totalAmount r ∧
       Rental.amountPaid r' = Rental.amountPaid r + amt ∧
       Rental.amountDue r' = Rental.totalAmount r - Rental.amountPaid r' ∧
       (Rental.paymentStatus r' = PAID ↔ Rental.totalAmount r ≤ Rental.amountPaid r') ∧
       (Rental.paymentStatus r' = PARTIAL ↔
          0 < Rental.amountPaid r' < Rental.totalAmount r) ∧
       (Rental.paymentStatus r' = UNPAID ↔
          Rental.amountPaid r' ≤ 0 ∧ Rental.amountPaid r' < Rental.totalAmount r)).
Proof.
  split.
  - intros user now newId rid amt paymentMethod reference notes db r Hr Hgt res.
    assert (Hcode : Response.code res.2
                    = if decide (User.role user = ADMIN) then 400 else 403).
    { unfold res, recordPayment, requireAdmin.
      destruct (decide (User.role user ≠ ADMIN)), (decide (User.role user = ADMIN));
        try done.
      destruct paymentMethod; [|done].
      destruct (negb _ || _); [done|]. rewrite Hr.
      destruct (Z.leb_spec amt 0); [done|].
      destruct (Z.ltb_spec (Rental.amountDue r) amt); [done|lia]. }
    split; [|done]. apply recordPayment_failure. fold res. rewrite Hcode.
    by destruct (decide _).
  - intros user now newId rentalId amount paymentMethod reference notes db res Hok.
    destruct (recordPayment_success _ _ _ _ _ _ _ _ _ Hok)
      as (rid & amt & method & r & _ & -> & -> & _ & Hr & Hamt & _ & Hdb).
    exists rid, amt, r,
      (RentalData.apply (paymentData r (Rental.amountPaid r + amt)) r).
    fold res in Hdb. rewrite Hdb. cbn [rentals set_rentals set_payments].
    rewrite lookup_insert_eq. cbn.
    pose proof (paymentStatusOf_cases (Rental.amountPaid r + amt)
                  (Rental.totalAmount r)) as (? & ? & ?).
    split_and!; first [done|lia].
Qed.

Lemma recordPayment_bound_and_status_witness :
  (let res := recordPayment admin date_2026_02_21 "p-9" (Some "r-2") (Some 131)
                (Some CASH) None None db_rented in
   res.1 = db_rented ∧
   Response.code res.2 = (if decide (User.role admin = ADMIN) then 400 else 403))
  ∧
  (let res := recordPayment admin date_2026_02_21 "p-9" (Some "r-2") (Some 130)
                (Some CASH) None None db_rented in
   ∃ rid amt r r',
     Some "r-2" = Some rid ∧ Some 130 = Some amt ∧
     rentals db_rented !! rid = Some r ∧ 0 < amt ≤ Rental.amountDue r ∧
     rentals res.1 !! rid = Some r' ∧
     Rental.totalAmount r' = Rental.totalAmount r ∧
     Rental.amountPaid r' = Rental.amountPaid r + amt ∧
     Rental.amountDue r' = Rental.totalAmount r - Rental.amountPaid r' ∧
     (Rental.paymentStatus r' = PAID ↔ Rental.totalAmount r ≤ Rental.amountPaid r') ∧
     (Rental.paymentStatus r' = PARTIAL ↔
        0 < Rental.amountPaid r' < Rental.totalAmount r) ∧
     (Rental.paymentStatus r' = UNPAID ↔
        Rental.amountPaid r' ≤ 0 ∧ Rental.amountPaid r' < Rental.totalAmount r)).
Proof.
  split.
  - apply (proj1 recordPayment_bound_and_status admin date_2026_02_21 "p-9" "r-2"
             131 (Some CASH) None None db_rented
             (newRentalRow staff date_2026_02_14 "c-alice" "i-drill"
                date_2026_02_14 date_2026_02_20 (Some 50) (Some 10) None drill));
      vm_compute; reflexivity.
  - apply (proj2 recordPayment_bound_and_status admin date_2026_02_21 "p-9"
             (Some "r-2") (Some 130) (Some CASH) None None db_rented).
    vm_compute. reflexivity.
Defined.

(** Paying the whole amount due makes the rental PAID; paying part of it
    makes it PARTIAL. *)
Example recordPayment_full_and_part :
  ledger <$> rentals db_paid !! "r-2" = Some (130, 0, PAID) ∧
  ledger <$> rentals (recordPayment admin date_2026_02_21 "p-9" (Some "r-2")
                        (Some 30) (Some CARD) None None db_rented).1 !! "r-2"
  = Some (30, 100, PARTIAL).
Proof. vm_compute. done. Qed.




(** How one request moves the status of a stored rental: it stays, or
    updateRental writes the status it was given, or returnItem completes a
    rental that was not completed, or the sweep marks an ACTIVE one OVERDUE. *)
Lemma status_step req db id r :
  rentals db !! id = Some r →
  ∃ r', rentals (handle req db).1 !! id = Some r' ∧
    (Rental.status r' = Rental.status r
     ∨ (∃ user startDate endDate s notes,
          req = UpdateRental user id startDate endDate (Some s) notes ∧
          Rental.status r' = s)
     ∨ (∃ user now, req = ReturnItem user now id ∧
          Rental.status r ≠ COMPLETED ∧ Rental.status r' = COMPLETED)
     ∨ (∃ user now, req = GetOverdueRentals user now ∧
          Rental.status r = ACTIVE ∧ Rental.status r' = OVERDUE)).
Proof.
  intros Hr.
  destruct req as [user now newId customerId itemId startDate endDate deposit
                     discount notes
                  |user id' startDate endDate status notes
                  |user now id'
                  |user now
                  |user now newId rentalId amount paymentMethod reference notes
                  |user id']; cbn [handle].
  - destruct (decide (Response.code
        (createRental user now newId customerId itemId startDate endDate deposit
           discount notes db).2 = 201)) as [Hok|Hko].
    + destruct (createRental_success _ _ _ _ _ _ _ _ _ _ _ Hok)
        as (cid & iid & start & end_ & item & _ & _ & _ & _ & _ & _ & _ & _ & _
            & Hfresh & ->).
      exists r. split; [|by left]. cbn.
      rewrite lookup_insert_ne; [done|congruence].
    + rewrite (createRental_failure _ _ _ _ _ _ _ _ _ _ _ Hko). eauto.
  - destruct (updateRental_cases user id' startDate endDate status notes db)
      as [[-> _]|(r0 & Hr0 & _ & ->)]; [eauto|]. cbn.
    destruct (decide (id' = id)) as [->|Hne].
    + rewrite lookup_insert_eq. eexists; split; [done|].
      assert (r0 = r) as -> by congruence.
      destruct status as [s|]; [|by left].
      right; left. by exists user, startDate, endDate, s, notes.
    + rewrite lookup_insert_ne by done. eauto.
  - destruct (returnItem_cases user now id' db)
      as [[-> _]|(r0 & item & Hr0 & Hst & _ & _ & ->)]; [eauto|]. cbn.
    destruct (decide (id' = id)) as [->|Hne].
    + rewrite lookup_insert_eq. eexists; split; [done|].
      assert (r0 = r) as -> by congruence.
      right; right; left. by exists user, now.
    + rewrite lookup_insert_ne by done. eauto.
  - rewrite getOverdueRentals_db. cbn. rewrite lookup_fmap, Hr. cbn.
    eexists; split; [done|].
    destruct (decide (overdue now r)) as [[Hact _]|]; [|by left].
    right; right; right. by exists user, now.
  - destruct (decide (Response.code
        (recordPayment user now newId rentalId amount paymentMethod reference
           notes db).2 = 201)) as [Hok|Hko].
    + destruct (recordPayment_success _ _ _ _ _ _ _ _ _ Hok)
        as (rid & amt & method & r0 & _ & _ & _ & _ & Hr0 & _ & _ & ->). cbn.
      destruct (decide (rid = id)) as [->|Hne].
      * rewrite lookup_insert_eq. eexists; split; [done|].
        assert (r0 = r) as -> by congruence. by left.
      * rewrite lookup_insert_ne by done. eauto.
    + rewrite (recordPayment_failure _ _ _ _ _ _ _ _ _ Hko). eauto.
  - destruct (deletePayment_cases user id' db)
      as [[-> _]|(p & r0 & _ & _ & Hr0 & _ & ->)]; [eauto|]. cbn.
    destruct (decide (Payment.rentalId p = id)) as [Heq|Hne].
    + rewrite Heq in *. rewrite lookup_insert_eq. eexists; split; [done|].
      assert (r0 = r) as -> by congruence. by left.
    + rewrite lookup_insert_ne by done. eauto.
Qed.

(** C6, as stated, fails: updateRental writes whatever status it is given,
    also over COMPLETED.  The completed rental "r-1" is ACTIVE again after
    PUT /rentals/r-1 with status ACTIVE. *)
Lemma completed_rental_counterexample :
  let res := handle (UpdateRental staff "r-1" None None (Some ACTIVE) None) db1 in
  Rental.status <$> rentals db1 !! "r-1" = Some COMPLETED ∧
  Response.code res.2 = 200 ∧
  Rental.status <$> rentals res.1 !! "r-1" = Some ACTIVE.
Proof. vm_compute. done. Qed.

(** returnItem is not refused on a CANCELLED rental: it completes it and
    releases a unit of the item. *)
Example cancelled_rental_returned :
  let cancelled := (updateRental staff "r-2" None None (Some CANCELLED) None
                      db_rented).1 in
  let res := returnItem staff date_2026_02_21 "r-2" cancelled in
  Rental.status <$> rentals cancelled !! "r-2" = Some CANCELLED ∧
  Item.quantity <$> items cancelled !! "i-drill" = Some 4 ∧
  Response.code res.2 = 200 ∧
  Rental.status <$> rentals res.1 !! "r-2" = Some COMPLETED ∧
  Item.quantity <$> items res.1 !! "i-drill" = Some 5.
Proof. vm_compute. done. Qed.

(** C6, amended.  On a COMPLETED rental, returnItem fails and changes
    nothing, and after any request the rental is still COMPLETED unless the
    request is an updateRental of this rental that carries a status, in which
    case the rental has the status written.  A CANCELLED rental likewise
    stays CANCELLED, except under an updateRental carrying a status and under
    returnItem, which completes it. *)
Theorem terminal_status req db id r :
  rentals db !! id = Some r →
  let res := handle req db in
  ∃ r', rentals res.1 !! id = Some r' ∧
    match Rental.status r with
    | COMPLETED =>
        (isReturnOf req id → res.1 = db ∧ Response.code res.2 = 500) ∧
        (Rental.status r' = COMPLETED
         ∨ statusWrite req id = Some (Rental.status r'))
    | CANCELLED =>
        Rental.status r' = CANCELLED
        ∨ statusWrite req id = Some (Rental.status r')
        ∨ (isReturnOf req id ∧ Rental.status r' = COMPLETED)
    | _ => True
    end.
Proof.
  intros Hr res.
  destruct (status_step req db id r Hr) as (r' & Hr' & Hstep). fold res in Hr'.
  exists r'. split; [done|].
  assert (Hwrite : ∀ user startDate endDate s notes,
            req = UpdateRental user id startDate endDate (Some s) notes →
            Rental.status r' = s → statusWrite req id = Some (Rental.status r')).
  { intros user startDate endDate s notes -> <-. cbn. by rewrite decide_True. }
  destruct (Rental.status r) eqn:Hst; try done.
  - split.
    + intros Hret. destruct req; try done. cbn in Hret.
      apply bool_decide_unpack in Hret as ->. subst res. cbn [handle].
      destruct (returnItem_cases user now id db)
        as [?|(r0 & item & Hr0 & Hne & _)]; [done|].
      congruence.
    + destruct Hstep as [Heq|[(? & ? & ? & ? & ? & Hreq & Hs)
                             |[(? & ? & _ & Hne & _)|(? & ? & _ & Hact & _)]]];
        [by left|right; eauto|done|done].
  - destruct Hstep as [Heq|[(? & ? & ? & ? & ? & Hreq & Hs)
                           |[(user & now & -> & _ & Hc)|(? & ? & _ & Hact & _)]]];
      [by left|right; left; eauto| |done].
    right; right. split; [|done]. cbn. by rewrite bool_decide_eq_true_2.
Qed.

Lemma terminal_status_witness :
  let res := handle (ReturnItem staff date_2026_02_21 "r-1") db1 in
  ∃ r', rentals res.1 !! "r-1" = Some r' ∧
    (true → res.1 = db1 ∧ Response.code res.2 = 500) ∧
    (Rental.status r' = COMPLETED ∨ None = Some (Rental.status r')).
Proof.
  apply (terminal_status (ReturnItem staff date_2026_02_21 "r-1") db1 "r-1" rental1).
  vm_compute. reflexivity.
Defined.

Lemma apply_overdueData r : RentalData.apply overdueData r = setStatus OVERDUE r.
Proof. reflexivity. Qed.

Lemma transaction_sweepOverdue now db :
  transaction (sweepOverdue now) db = (swept now db, inr tt).
Proof. reflexivity. Qed.



Lemma default_aggregate_sum {A} (table : gmap string A) (P : A → Prop)
    `{∀ a, Decision (P a)} (f : A → Z) :
  default 0 (aggregate_sum table P f)
  = sum ((λ row, f row.2) <$> filter (λ row, P row.2) (rows table)).
Proof. unfold aggregate_sum. by destruct (filter _ _). Qed.

Lemma hundredths_nearest num den :
  0 < den → Z.abs (hundredths num den * den - 100 * Z.abs num) * 2 ≤ den.
Proof.
  intros Hden. unfold hundredths.
  pose proof (Z.mul_div_le (2 * 100 * Z.abs num + den) (2 * den) ltac:(lia)).
  pose proof (Z.mul_succ_div_gt (2 * 100 * Z.abs num + den) (2 * den) ltac:(lia)).
  lia.
Qed.

(** The sweep at work: an ACTIVE rental past its endDate becomes OVERDUE and
    is listed; a second request at the same time gives the same answer. *)
Example sweepOverdue_sample :
  let active := (updateRental staff "r-2" None None (Some ACTIVE) None db_rented).1 in
  let first := getOverdueRentals staff date_2026_02_21 active in
  Rental.status <$> rentals first.1 !! "r-2" = Some OVERDUE ∧
  (listOverdue first.1).*1 = ["r-2"] ∧
  getOverdueRentals staff date_2026_02_21 first.1 = first ∧
  (getOverdueRentals staff date_2026_02_20 active).1 = active.
Proof. vm_compute. done. Qed.

(** C9, as stated, fails in its last clause: with one payment of 3 and one
    expense of 2 the summary has totalRevenue 3 and netProfit 1, and its
    profitMargin is the string "33.33", that is 3333/100, which is not
    1/3 * 100. *)
Lemma summary_profitMargin_counterexample :
  let body := Response.body (summary admin None None db_thirds).2 in
  field "totalRevenue" body = Some (JNum 3) ∧
  field "netProfit" body = Some (JNum 1) ∧
  field "profitMargin" body = Some (JStr "33.33") ∧
  ¬ Qeq (Qmake 3333 100) (Qmult (Qdiv (inject_Z 1) (inject_Z 3)) (inject_Z 100)).
Proof. vm_compute. split_and!; try done. Qed.

(** C9, amended.  For an administrator the summary gives totalRevenue = the
    sum of Payment.amount with paymentDate in the requested period,
    totalExpenses = the sum of Expense.amount with expenseDate in the period,
    netProfit = totalRevenue - totalExpenses, outstandingPayments = the sum
    of amountDue over all rentals whose paymentStatus is UNPAID or PARTIAL,
    whatever the period, and profitMargin = the number 0 when totalRevenue is
    not positive (so when it is 0), and otherwise the two-decimal string of
    netProfit / totalRevenue * 100 rounded to the nearest hundredth. *)
Theorem summary_fields user startDate endDate db :
  User.role user = ADMIN →
  let res := summary user startDate endDate db in
  let body := Response.body res.2 in
  let totalRevenue :=
    sum ((λ p, Payment.amount p.2)
         <$> filter (λ p, inPeriod startDate endDate (Payment.paymentDate p.2))
                    (rows (payments db))) in
  let totalExpenses :=
    sum ((λ e, Expense.amount e.2)
         <$> filter (λ e, inPeriod startDate endDate (Expense.expenseDate e.2))
                    (rows (expenses db))) in
  let netProfit := totalRevenue - totalExpenses in
  let outstandingPayments :=
    sum ((λ r, Rental.amountDue r.2)
         <$> filter (λ r, outstanding r.2) (rows (rentals db))) in
  res.1 = db ∧ Response.code res.2 = 200 ∧
  field "totalRevenue" body = Some (JNum totalRevenue) ∧
  field "totalExpenses" body = Some (JNum totalExpenses) ∧
  field "netProfit" body = Some (JNum netProfit) ∧
  field "outstandingPayments" body = Some (JNum outstandingPayments) ∧
  (totalRevenue ≤ 0 → field "profitMargin" body = Some (JNum 0)) ∧
  (0 < totalRevenue →
     ∃ n, field "profitMargin" body = Some (JStr (fixed2 (netProfit <? 0) n)) ∧
          Z.abs (n * totalRevenue - 100 * Z.abs (netProfit * 100)) * 2
            ≤ totalRevenue).
Proof.
  intros Hrole res body totalRevenue totalExpenses netProfit outstandingPayments.
  subst body res. unfold summary, requireAdmin.
  rewrite decide_False by (by intros []).
  rewrite !default_aggregate_sum.
  fold totalRevenue totalExpenses outstandingPayments. fold netProfit.
  split_and!; try reflexivity.
  - intros Hle. cbn. by destruct (Z.ltb_spec 0 totalRevenue); [lia|].
  - intros Hlt. exists (hundredths (netProfit * 100) totalRevenue). split.
    + cbn. destruct (Z.ltb_spec 0 totalRevenue); [|lia]. unfold toFixed2.
      do 3 f_equal. destruct (Z.ltb_spec (netProfit * 100) 0), (Z.ltb_spec netProfit 0);
        done || lia.
    + by apply hundredths_nearest.
Qed.

Lemma summary_fields_witness :
  let res := summary admin None None db_thirds in
  let body := Response.body res.2 in
  res.1 = db_thirds ∧ Response.code res.2 = 200 ∧
  field "totalRevenue" body = Some (JNum 3) ∧
  field "totalExpenses" body = Some (JNum 2) ∧
  field "netProfit" body = Some (JNum 1) ∧
  field "outstandingPayments" body = Some (JNum 0) ∧
  (3 ≤ 0 → field "profitMargin" body = Some (JNum 0)) ∧
  (0 < 3 →
     ∃ n, field "profitMargin" body = Some (JStr (fixed2 false n)) ∧
          Z.abs (n * 3 - 100 * Z.abs (1 * 100)) * 2 ≤ 3).
Proof.
  apply (summary_fields admin None None db_thirds). reflexivity.
Defined.

(** ** Redaction helpers *)

Lemma prop_Some_elem k v (o : obj) : prop k o = Some v → (k, v) ∈ o.
Proof.
  induction o as [|[k' v'] o IH]; [done|]. cbn.
  destruct (decide (k' = k)) as [->|]; [intros [= ->]; left|right; auto].
Qed.

Lemma prop_omit_None k ks o : k ∈ ks → prop k (omit ks o) = None.
Proof.
  intros Hk. destruct (prop k (omit ks o)) as [v|] eqn:Hv; [|done].
  apply prop_Some_elem, list_elem_of_filter in Hv as [Hnot _]. done.
Qed.

Lemma exposed_omit ks ks' o :
  Forall (λ k, k ∈ ks') ks → exposed ks (JObj (omit ks' o)) = [].
Proof.
  intros Hsub. rewrite Forall_forall in Hsub. unfold exposed.
  destruct (filter _ ks) as [|k shown] eqn:Hshown; [done|].
  assert (k ∈ filter (λ k, is_Some (field k (JObj (omit ks' o)))) ks) as Hk
    by (rewrite Hshown; left).
  apply list_elem_of_filter in Hk as [[v Hv] Hk]. cbn in Hv.
  rewrite prop_omit_None in Hv; [done|]. by apply Hsub.
Qed.

(** What [filterFinancialData] returns carries none of the nine financial
    fields of a rental, and what [filterCost] returns carries no cost. *)
Lemma filterFinancialData_hides rental :
  exposed rentalFinancialFields (JObj (filterFinancialData rental)) = [].
Proof. apply exposed_omit. repeat constructor. Qed.

Lemma filterCost_hides maintenance :
  exposed maintenanceFinancialFields (JObj (filterCost maintenance)) = [].
Proof. apply exposed_omit. repeat constructor. Qed.

(** The rentals and maintenance routers redact a single record for staff. *)
Lemma getRental_staff_hides user id db :
  User.role user = STAFF →
  exposed rentalFinancialFields (Response.body (getRental user id db).2) = [].
Proof.
  intros Hrole. unfold getRental, forRole.
  destruct (decide (User.role user = STAFF)); [|done].
  destruct (rentals db !! id); [|reflexivity].
  exact (filterFinancialData_hides _).
Qed.

Lemma getMaintenance_staff_hides user id db :
  User.role user = STAFF →
  exposed maintenanceFinancialFields (Response.body (getMaintenance user id db).2) = [].
Proof.
  intros Hrole. unfold getMaintenance. destruct (maintenances db !! id); [|reflexivity].
  cbn. unfold forRole. destruct (decide (User.role user = STAFF)); [|done].
  apply filterCost_hides.
Qed.

(** The customers router redacts the rentals nested under a customer. *)
Example getCustomer_staff_hides :
  exposed rentalFinancialFields
  <$> elements (field "rentals" (Response.body (getCustomer staff "c-alice" db1).2))
  = [[]].
Proof. vm_compute. reflexivity. Qed.

(** C1.  The code at the failing input: GET /items/:id, called by a STAFF
    user for an item that has a rental and a maintenance record, answers 200
    with the rental carrying all nine financial fields and the maintenance
    record carrying its cost; the payload is the one an ADMIN gets. *)
Theorem getItem_staff_exposes_financial_fields :
  let res := getItem staff "i-drill" db1 in
  Response.code res.2 = 200 ∧
  exposed rentalFinancialFields <$> elements (field "rentals" (Response.body res.2))
  = [rentalFinancialFields] ∧
  exposed maintenanceFinancialFields
  <$> elements (field "maintenances" (Response.body res.2))
  = [maintenanceFinancialFields] ∧
  res = getItem admin "i-drill" db1.
Proof. vm_compute. done. Qed.

(** * Further properties *)

(** ** Redaction *)

Lemma prop_omit k ks (o : obj) :
  prop k (omit ks o) = if decide (k ∈ ks) then None else prop k o.
Proof.
  destruct (decide (k ∈ ks)) as [Hk|Hk]; [by apply prop_omit_None|].
  unfold omit, obj in *. induction o as [|[k' v] o IH]; [done|].
  rewrite filter_cons. cbn [fst]. destruct (decide (k' ∉ ks)) as [Hk'|Hk'].
  - cbn. by rewrite IH.
  - cbn. rewrite IH. destruct (decide (k' = k)) as [->|]; [|done].
    by apply dec_stable in Hk'.
Qed.

(** X1.  The two redaction helpers remove exactly the properties they name:
    in what [filterFinancialData] returns the nine financial fields and
    [payments] are absent and every other property has the value it had; in
    what [filterCost] returns [cost] is absent and every other property has
    the value it had. *)
Theorem filters_remove_exactly rental maintenance k :
  prop k (filterFinancialData rental)
  = (if decide (k ∈ rentalFinancialFields ++ ["payments"]) then None
     else prop k rental) ∧
  prop k (filterCost maintenance)
  = (if decide (k = "cost") then None else prop k maintenance).
Proof.
  unfold filterFinancialData, filterCost. rewrite !prop_omit. split; [done|].
  destruct (decide (k ∈ ["cost"])) as [Hin|Hout], (decide (k = "cost")) as [->|Hne];
    try done.
  - by apply list_elem_of_singleton in Hin.
  - exfalso. apply Hout. by left.
Qed.

Lemma exposed_nil ks j : (∀ k, k ∈ ks → field k j = None) → exposed ks j = [].
Proof.
  intros Hnone. unfold exposed.
  destruct (filter _ ks) as [|k shown] eqn:Hshown; [done|].
  assert (k ∈ filter (λ k, is_Some (field k j)) ks) as Hk by (rewrite Hshown; left).
  apply list_elem_of_filter in Hk as [[v Hv] Hk]. by rewrite Hnone in Hv.
Qed.

Lemma redacted_error code msg :
  Forall redacted (records (Response.body (json_error code msg))).
Proof. repeat constructor. Qed.

Lemma redacted_filtered user rental :
  User.role user = STAFF →
  redacted (JObj (forRole user filterFinancialData rental)).
Proof.
  intros Hrole. unfold forRole. rewrite decide_True by done.
  apply exposed_omit. repeat constructor.
Qed.

Lemma redacted_list {A} user (view : A → obj) (l : list A) :
  User.role user = STAFF →
  Forall redacted
    (records (JArr ((λ r, JObj (forRole user filterFinancialData (view r))) <$> l))).
Proof.
  intros Hrole. cbn. apply Forall_fmap, Forall_forall. intros r _.
  by apply redacted_filtered.
Qed.

Ltac redacted_leaf :=
  cbn [snd Response.body json_error json_ok records];
  first [ apply Forall_singleton; reflexivity
        | by apply Forall_singleton, redacted_filtered ].

(** X2.  Whatever the store and the arguments, and whether the request
    succeeds or not, no record of a response of the rentals router to a STAFF
    user carries one of the nine financial fields or [payments]: the single
    rental of GET /:id, POST /, PUT /:id and PUT /:id/return, and every
    element of GET /status/active and GET /status/overdue.  The payment
    requests answer a STAFF user with an error, which carries none either. *)
Theorem rentals_router_staff_redacted db :
  (∀ req, User.role (requester req) = STAFF →
     Forall redacted (records (Response.body (handle req db).2))) ∧
  (∀ user id, User.role user = STAFF →
     Forall redacted (records (Response.body (getRental user id db).2))) ∧
  (∀ user, User.role user = STAFF →
     Forall redacted (records (Response.body (getActiveRentals user db).2))).
Proof.
  split_and!.
  - intros [user now newId customerId itemId startDate endDate deposit discount notes
           |user id startDate endDate status notes
           |user now id
           |user now
           |user now newId rentalId amount paymentMethod reference notes
           |user id] Hrole; cbn in Hrole; cbn [handle].
    + unfold createRental, transaction.
      repeat case_match; simplify_eq; redacted_leaf.
    + unfold updateRental, transaction.
      repeat case_match; simplify_eq; redacted_leaf.
    + unfold returnItem, transaction.
      repeat case_match; simplify_eq; redacted_leaf.
    + unfold getOverdueRentals. rewrite transaction_sweepOverdue.
      by apply (redacted_list user (λ r, rentalWith customer_item _ r.1 r.2)).
    + unfold recordPayment, requireAdmin. rewrite decide_True by (by rewrite Hrole).
      apply redacted_error.
    + unfold deletePayment, requireAdmin. rewrite decide_True by (by rewrite Hrole).
      apply redacted_error.
  - intros user id Hrole. unfold getRental.
    destruct (rentals db !! id); [|apply redacted_error].
    by apply Forall_singleton, redacted_filtered.
  - intros user Hrole. unfold getActiveRentals.
    by apply (redacted_list user (λ r, rentalWith customer_item _ r.1 r.2)).
Qed.

Lemma rentals_router_staff_redacted_witness :
  Forall redacted
    (records (Response.body
                (handle (GetOverdueRentals staff date_2026_02_21)
                   (updateRental staff "r-2" None None (Some ACTIVE) None
                      db_rented).1).2)).
Proof.
  apply (proj1 (rentals_router_staff_redacted _)
           (GetOverdueRentals staff date_2026_02_21)).
  reflexivity.
Defined.



Lemma costHidden_filtered user maintenance :
  User.role user = STAFF → costHidden (JObj (forRole user filterCost maintenance)).
Proof.
  intros Hrole. unfold forRole. rewrite decide_True by done. apply filterCost_hides.
Qed.

Ltac costHidden_leaf :=
  cbn [snd Response.body json_error json_ok];
  first [ reflexivity | by apply costHidden_filtered ].

(** X4.  No response of the maintenance router to a STAFF user carries
    [cost], whatever the store and the arguments and whether the request
    succeeds: GET /:id, POST /, PUT /:id and PUT /:id/complete. *)
Theorem maintenance_router_staff_redacted user db :
  User.role user = STAFF →
  (∀ id, costHidden (Response.body (getMaintenance user id db).2)) ∧
  (∀ now newId itemId description cost,
     costHidden (Response.body
                   (createMaintenance user now newId itemId description cost db).2)) ∧
  (∀ id description status cost,
     costHidden (Response.body (updateMaintenance user id description status cost db).2)) ∧
  (∀ now id, costHidden (Response.body (completeMaintenance user now id db).2)).
Proof.
  intros Hrole. split_and!.
  - intros id. unfold getMaintenance.
    destruct (maintenances db !! id); costHidden_leaf.
  - intros now newId itemId description cost. unfold createMaintenance, transaction.
    repeat case_match; simplify_eq; costHidden_leaf.
  - intros id description status cost. unfold updateMaintenance, transaction.
    repeat case_match; simplify_eq; costHidden_leaf.
  - intros now id. unfold completeMaintenance, transaction.
    repeat case_match; simplify_eq; costHidden_leaf.
Qed.

Lemma maintenance_router_staff_redacted_witness :
  costHidden (Response.body (getMaintenance staff "m-1" db1).2).
Proof.
  apply (proj1 (maintenance_router_staff_redacted staff db1 eq_refl) "m-1").
Defined.

Lemma nineHidden_omitted (l : list obj) :
  Forall nineHidden
    (JObj <$> (omit ["dailyRate"; "numberOfDays"; "subtotal"; "deposit"; "discount";
                     "totalAmount"; "amountPaid"; "amountDue"; "paymentStatus"]
               <$> l)).
Proof.
  rewrite <- list_fmap_compose. apply Forall_fmap, Forall_forall. intros o _.
  apply exposed_omit. repeat constructor.
Qed.

(** X5.  The three places that redact rentals by an inline destructuring do
    so for every store: for a STAFF user no rental nested under
    GET /customers/:id, no element of GET /customers/:id/rentals and no
    element of GET /dashboard/activity carries one of the nine financial
    fields. *)
Theorem nested_rentals_staff_redacted user db :
  User.role user = STAFF →
  (∀ id, Forall nineHidden
           (elements (field "rentals" (Response.body (getCustomer user id db).2)))) ∧
  (∀ id, Forall nineHidden
           (records (Response.body (getCustomerRentals user id db).2))) ∧
  Forall nineHidden (records (Response.body (getActivity user db).2)).
Proof.
  intros Hrole. split_and!.
  - intros id. unfold getCustomer.
    destruct (customers db !! id) as [customer|]; [|constructor].
    rewrite decide_True by done. cbn [snd Response.body json_ok].
    replace (field "rentals" _) with
      (Some (JArr (JObj <$> (omit ["dailyRate"; "numberOfDays"; "subtotal"; "deposit";
                                   "discount"; "totalAmount"; "amountPaid";
                                   "amountDue"; "paymentStatus"]
             <$> ((λ r, rentalWith (mkInclude false true false false) db r.1 r.2)
                  <$> findMany (rentals db) (λ r, Rental.customerId r = id)
                        (desc Rental.createdAt)))))) by reflexivity.
    apply nineHidden_omitted.
  - intros id. unfold getCustomerRentals. rewrite decide_True by done.
    apply nineHidden_omitted.
  - unfold getActivity. rewrite decide_True by done. apply nineHidden_omitted.
Qed.

Lemma nested_rentals_staff_redacted_witness :
  Forall nineHidden
    (elements (field "rentals" (Response.body (getCustomer staff "c-alice" db1).2))).
Proof.
  apply (proj1 (nested_rentals_staff_redacted staff db1 eq_refl) "c-alice").
Defined.

(** X6.  Every handler of the finances router refuses a user who is not an
    ADMIN with 403 and leaves the store as it is: recording and deleting
    payments, the summary, and creating, updating and deleting expenses. *)
Theorem finances_require_admin user db :
  User.role user ≠ ADMIN →
  let refused := (db, json_error 403 "Admin access required") in
  (∀ now newId rentalId amount paymentMethod reference notes,
     recordPayment user now newId rentalId amount paymentMethod reference notes db
     = refused) ∧
  (∀ id, deletePayment user id db = refused) ∧
  (∀ startDate endDate, summary user startDate endDate db = refused) ∧
  (∀ now newId description amount category expenseDate,
     createExpense user now newId description amount category expenseDate db
     = refused) ∧
  (∀ id description amount category expenseDate,
     updateExpense user id description amount category expenseDate db = refused) ∧
  (∀ id, deleteExpense user id db = refused).
Proof.
  intros Hrole refused.
  unfold recordPayment, deletePayment, summary, createExpense, updateExpense,
    deleteExpense, requireAdmin.
  by destruct (decide (User.role user ≠ ADMIN)).
Qed.

Lemma finances_require_admin_witness :
  deletePayment staff "p-1" db1 = (db1, json_error 403 "Admin access required").
Proof.
  destruct (finances_require_admin staff db1) as (_ & Hdelete & _); [discriminate|].
  exact (Hdelete "p-1").
Defined.

(** ** Counting rows *)

Lemma count_zero {A} (table : gmap string A) (P : A → Prop) `{∀ a, Decision (P a)}
    k a :
  count table P = 0%nat → table !! k = Some a → ¬ P a.
Proof.
  unfold count, rows. intros Hzero Hk HP.
  apply length_zero_iff_nil in Hzero.
  assert ((k, a) ∈ filter (λ row, P row.2) (map_to_list table)) as Hin.
  { apply list_elem_of_filter. split; [done|]. by apply elem_of_map_to_list. }
  rewrite Hzero in Hin. by apply not_elem_of_nil in Hin.
Qed.

Lemma count_pos {A} (table : gmap string A) (P : A → Prop) `{∀ a, Decision (P a)} :
  (0 < count table P)%nat ↔ ∃ k a, table !! k = Some a ∧ P a.
Proof.
  unfold count, rows. split.
  - destruct (filter _ _) as [|[k a] l] eqn:Hl; cbn; [lia|]. intros _.
    assert ((k, a) ∈ filter (λ row, P row.2) (map_to_list table)) as Hin
      by (rewrite Hl; left).
    apply list_elem_of_filter in Hin as [HP Hin]. apply elem_of_map_to_list in Hin.
    by exists k, a.
  - intros (k & a & Hk & HP).
    assert ((k, a) ∈ filter (λ row, P row.2) (map_to_list table)) as Hin.
    { apply list_elem_of_filter. split; [done|]. by apply elem_of_map_to_list. }
    destruct (filter _ _); [by apply not_elem_of_nil in Hin|cbn; lia].
Qed.

(** ** What the further handlers do to the store *)

Lemma createMaintenance_cases user now newId itemId description cost db :
  let res := createMaintenance user now newId itemId description cost db in
  (res.1 = db ∧ Response.code res.2 ≠ 201 ∧ Response.code res.2 ≠ 200) ∨
  (∃ iid desc item,
     itemId = Some iid ∧ description = Some desc ∧
     items db !! iid = Some item ∧ maintenances db !! newId = None ∧
     Response.code res.2 = 201 ∧
     res.1 = set_items <[iid := ItemData.apply enterMaintenance item]>
               (set_maintenances
                  <[newId := newMaintenanceRow user now iid desc cost]> db)).
Proof.
  unfold createMaintenance.
  destruct itemId as [iid|], description as [desc|]; try (left; done).
  destruct (negb _); [left; done|].
  destruct (items db !! iid) as [item|] eqn:Hitem; [|left; done].
  unfold transaction, tx_bind, maintenance_create, tx_gets, item_update, tx_ret.
  destruct (maintenances db !! newId) eqn:Hfresh; [left; done|].
  cbn [items set_maintenances]. rewrite Hitem.
  right. exists iid, desc, item. done.
Qed.

Lemma completeMaintenance_cases user now id db :
  let res := completeMaintenance user now id db in
  (res.1 = db ∧ Response.code res.2 = 500) ∨
  (∃ m item,
     maintenances db !! id = Some m ∧ Maintenance.status m ≠ MAINT_COMPLETED ∧
     items db !! Maintenance.itemId m = Some item ∧
     Response.code res.2 = 200 ∧
     res.1 = set_items <[Maintenance.itemId m := ItemData.apply exitMaintenance item]>
               (set_maintenances <[id := completed now m]> db)).
Proof.
  unfold completeMaintenance, transaction, tx_bind, maintenance_findUnique, tx_gets.
  destruct (maintenances db !! id) as [m|] eqn:Hm; [|left; done].
  destruct (decide (Maintenance.status m = MAINT_COMPLETED)); [left; done|].
  unfold maintenance_update, item_update, tx_ret. rewrite Hm.
  cbn [items set_maintenances].
  destruct (items db !! Maintenance.itemId m) as [item|] eqn:Hitem; [|left; done].
  right. exists m, item. done.
Qed.

Lemma updateMaintenance_cases user id description status cost db :
  let res := updateMaintenance user id description status cost db in
  (maintenances db !! id = None ∧ res.1 = db ∧ Response.code res.2 = 404) ∨
  (∃ m, maintenances db !! id = Some m ∧ Response.code res.2 = 200 ∧
        res.1 = set_maintenances
                  <[id := MaintenanceData.apply
                            (maintenanceUpdate user description status cost) m]> db).
Proof.
  unfold updateMaintenance, transaction, tx_bind, maintenance_updateData, tx_gets.
  destruct (maintenances db !! id) as [m|] eqn:Hm; [|left; done].
  right. exists m. done.
Qed.

Lemma deleteMaintenance_cases id db :
  let res := deleteMaintenance id db in
  (maintenances db !! id = None ∧ res.1 = db ∧ Response.code res.2 = 404) ∨
  (is_Some (maintenances db !! id) ∧ Response.code res.2 = 200 ∧
   res.1 = set_maintenances (delete id) db).
Proof.
  unfold deleteMaintenance, transaction, maintenance_delete.
  destruct (maintenances db !! id) as [m|] eqn:Hm; [right|left]; eauto.
Qed.

Lemma deleteCustomer_cases id db :
  let res := deleteCustomer id db in
  (res.1 = db ∧
   (Response.code res.2 = 400 ∨ Response.code res.2 = 404 ∨ Response.code res.2 = 500)) ∨
  (is_Some (customers db !! id) ∧
   count (rentals db) (λ r, Rental.customerId r = id) = 0%nat ∧
   Response.code res.2 = 200 ∧ res.1 = set_customers (delete id) db).
Proof.
  unfold deleteCustomer, transaction, customer_delete.
  destruct (decide (0 < _)%nat); [left; eauto|].
  destruct (customers db !! id) as [c|] eqn:Hc; [|left; eauto].
  destruct (decide (count _ _ = 0%nat)); [right; eauto|left; eauto].
Qed.

Lemma deleteItem_cases id db :
  let res := deleteItem id db in
  (res.1 = db ∧
   (Response.code res.2 = 400 ∨ Response.code res.2 = 404 ∨ Response.code res.2 = 500)) ∨
  (is_Some (items db !! id) ∧
   count (rentals db) (λ r, Rental.itemId r = id) = 0%nat ∧
   count (maintenances db) (λ m, Maintenance.itemId m = id) = 0%nat ∧
   Response.code res.2 = 200 ∧ res.1 = set_items (delete id) db).
Proof.
  unfold deleteItem, transaction, item_delete.
  destruct (decide (0 < _)%nat); [left; eauto|].
  destruct (items db !! id) as [i|] eqn:Hi; [|left; eauto].
  destruct (decide (count (rentals db) _ = 0%nat)); [|left; eauto].
  destruct (decide (count (maintenances db) _ = 0%nat)); [right|left]; eauto 10.
Qed.

Lemma createCategory_cases newId name db :
  let res := createCategory newId name db in
  (res.1 = db ∧ (Response.code res.2 = 400 ∨ Response.code res.2 = 500)) ∨
  (∃ n, name = Some n ∧ n ≠ EmptyString ∧ categories db !! newId = None ∧
        ¬ nameTaken db None n ∧ Response.code res.2 = 201 ∧
        res.1 = set_categories <[newId := Category.mk n]> db).
Proof.
  unfold createCategory. destruct name as [n|]; [|left; eauto]. cbn [truthy].
  destruct (bool_decide_reflect (n = EmptyString)); [left; eauto|]. cbn [negb].
  unfold transaction, category_create.
  destruct (categories db !! newId) eqn:Hfresh; [left; eauto|].
  cbn [Category.name].
  destruct (decide (nameTaken db None n)); [left; eauto|].
  right. exists n. done.
Qed.

Lemma updateCategory_cases id name db :
  let res := updateCategory id name db in
  (res.1 = db) ∨
  (∃ n, name = Some n ∧ n ≠ EmptyString ∧ is_Some (categories db !! id) ∧
        ¬ nameTaken db (Some id) n ∧ Response.code res.2 = 200 ∧
        res.1 = set_categories <[id := Category.mk n]> db).
Proof.
  unfold updateCategory, transaction, category_update.
  destruct (categories db !! id) as [c|] eqn:Hc; [|left; done].
  destruct name as [n|]; [|left; done]. cbn [truthy].
  destruct (bool_decide_reflect (n = EmptyString)); [left; done|]. cbn [negb].
  destruct (decide (nameTaken db (Some id) n)); [left; done|].
  right. exists n. eauto 10.
Qed.

Lemma deleteCategory_cases id db :
  let res := deleteCategory id db in
  (res.1 = db ∧ (Response.code res.2 = 400 ∨ Response.code res.2 = 404)) ∨
  (is_Some (categories db !! id) ∧
   count (items db) (λ i, Item.categoryId i = id) = 0%nat ∧
   Response.code res.2 = 200 ∧ res.1 = set_categories (delete id) db).
Proof.
  unfold deleteCategory, transaction, category_delete.
  destruct (decide (0 < _)%nat) as [|Hzero]; [left; eauto|].
  destruct (categories db !! id) as [c|] eqn:Hc; [|left; eauto].
  rewrite decide_True by lia. right. split_and!; eauto. lia.
Qed.

Lemma createExpense_cases user now newId description amount category expenseDate db :
  let res := createExpense user now newId description amount category expenseDate db in
  (res.1 = db ∧ Response.code res.2 ≠ 201 ∧ Response.code res.2 ≠ 200) ∨
  (∃ desc amt cat,
     User.role user = ADMIN ∧ description = Some desc ∧ amount = Some amt ∧
     category = Some cat ∧ amt ≠ 0 ∧ expenses db !! newId = None ∧
     Response.code res.2 = 201 ∧
     res.1 = set_expenses
               <[newId := Expense.mk desc amt cat (default now expenseDate)]> db).
Proof.
  unfold createExpense, requireAdmin.
  destruct (decide (User.role user ≠ ADMIN)) as [|Hrole]; [left; done|].
  apply dec_stable in Hrole.
  destruct description as [desc|], amount as [amt|], category as [cat|];
    try (left; done).
  destruct (Z.eqb_spec amt 0); [rewrite orb_true_r; left; done|].
  rewrite orb_false_r. destruct (negb _); [left; done|].
  unfold transaction, expense_create.
  destruct (expenses db !! newId) eqn:Hfresh; [left; done|].
  right. exists desc, amt, cat. done.
Qed.

Lemma updateExpense_cases user id description amount category expenseDate db :
  let res := updateExpense user id description amount category expenseDate db in
  (res.1 = db ∧ Response.code res.2 ≠ 200 ∧ Response.code res.2 ≠ 201) ∨
  (∃ e, User.role user = ADMIN ∧ expenses db !! id = Some e ∧
        Response.code res.2 = 200 ∧
        res.1 = set_expenses
                  <[id := ExpenseData.apply
                     (ExpenseData.mk (if truthy description then description else None)
                        (match amount with Some 0 => None | _ => amount end)
                        (if truthy category then category else None) expenseDate) e]>
                  db).
Proof.
  unfold updateExpense, requireAdmin.
  destruct (decide (User.role user ≠ ADMIN)) as [|Hrole]; [left; done|].
  apply dec_stable in Hrole. unfold transaction, expense_update.
  destruct (expenses db !! id) as [e|] eqn:He; [|left; done].
  right. exists e. done.
Qed.

Lemma deleteExpense_cases user id db :
  let res := deleteExpense user id db in
  (res.1 = db ∧ Response.code res.2 ≠ 200 ∧ Response.code res.2 ≠ 201) ∨
  (User.role user = ADMIN ∧ is_Some (expenses db !! id) ∧
   Response.code res.2 = 200 ∧ res.1 = set_expenses (delete id) db).
Proof.
  unfold deleteExpense, requireAdmin.
  destruct (decide (User.role user ≠ ADMIN)) as [|Hrole]; [left; done|].
  apply dec_stable in Hrole. unfold transaction, expense_delete.
  destruct (expenses db !! id) as [e|] eqn:He; [|left; done].
  right. eauto.
Qed.

(** ** Every writing request, case by case *)

Lemma createRental_cases user now newId customerId itemId startDate endDate
    deposit discount notes db :
  let res := createRental user now newId customerId itemId startDate endDate
               deposit discount notes db in
  (res.1 = db ∧ Response.code res.2 ≠ 201 ∧ Response.code res.2 ≠ 200) ∨
  (∃ cid iid start end_ item,
     customerId = Some cid ∧ itemId = Some iid ∧
     startDate = Some start ∧ endDate = Some end_ ∧
     items db !! iid = Some item ∧ 1 ≤ Item.quantity item ∧
     is_Some (customers db !! cid) ∧ rentals db !! newId = None ∧
     Response.code res.2 = 201 ∧
     res.1 = set_items <[iid := ItemData.apply reserveUnit item]>
               (set_rentals <[newId := newRentalRow user now cid iid start end_
                                         deposit discount notes item]> db)).
Proof.
  unfold createRental.
  destruct customerId as [cid|], itemId as [iid|], startDate as [start|],
    endDate as [end_|]; try (left; done).
  destruct (negb _); [left; done|].
  destruct (Z.leb_spec end_ start); [left; done|].
  destruct (items db !! iid) as [item|] eqn:Hitem; [|left; done].
  destruct (bool_decide_reflect (Item.status item = AVAILABLE)); [|left; done].
  destruct (Z.ltb_spec (Item.quantity item) 1); [left; done|]. cbn [negb orb].
  destruct (customers db !! cid) as [customer|] eqn:Hcust; [|left; done].
  unfold transaction, tx_bind, rental_create, tx_gets, item_update, tx_ret.
  destruct (rentals db !! newId) eqn:Hfresh; [left; done|].
  cbn [items set_rentals]. rewrite Hitem.
  right. exists cid, iid, start, end_, item. split_and!; eauto.
Qed.

Lemma recordPayment_cases user now newId rentalId amount paymentMethod
    reference notes db :
  let res := recordPayment user now newId rentalId amount paymentMethod
               reference notes db in
  (res.1 = db ∧ Response.code res.2 ≠ 201 ∧ Response.code res.2 ≠ 200) ∨
  (∃ rid amt method r,
     rentalId = Some rid ∧ amount = Some amt ∧
     rentals db !! rid = Some r ∧ 0 < amt ≤ Rental.amountDue r ∧
     payments db !! newId = None ∧ Response.code res.2 = 201 ∧
     res.1 = set_rentals
               <[rid := RentalData.apply (paymentData r (Rental.amountPaid r + amt)) r]>
               (set_payments
                  <[newId := Payment.mk rid amt method now reference notes]> db)).
Proof.
  unfold recordPayment, requireAdmin.
  destruct (decide (User.role user ≠ ADMIN)) as [|Hrole]; [left; done|].
  destruct rentalId as [rid|], amount as [amt|], paymentMethod as [method|];
    try (left; done).
  destruct (negb _ || _); [left; done|].
  destruct (rentals db !! rid) as [r|] eqn:Hr; [|left; done].
  destruct (Z.leb_spec amt 0); [left; done|].
  destruct (Z.ltb_spec (Rental.amountDue r) amt); [left; done|].
  unfold transaction, tx_bind, payment_create, tx_gets, rental_update, tx_ret.
  destruct (payments db !! newId) eqn:Hfresh; [left; done|].
  cbn. rewrite Hr. cbn.
  right. exists rid, amt, method, r. split_and!; eauto.
Qed.

(** One case per outcome of a request: the store is as it was, or the
    request went through and the named tables changed as stated. *)
Ltac run_cases op db :=
  destruct op as
    [[user now newId customerId itemId startDate endDate deposit discount notes
     |user id startDate endDate status notes
     |user now id
     |user now
     |user now newId rentalId amount paymentMethod reference notes
     |user id]
    |user now newId itemId description cost
    |user id description status cost
    |user now id
    |id |id |id
    |newId name |id name |id
    |user now newId description amount category expenseDate
    |user id description amount category expenseDate
    |user id]; cbn [run handle];
  [ destruct (createRental_cases user now newId customerId itemId startDate endDate
                deposit discount notes db)
      as [(Hdb & Hcode & Hcode')
         |(cid & iid & start & end_ & item & _ & _ & _ & _ & Hitem & Hqty & Hcust
           & Hfresh & Hcode & Hdb)];
    rewrite Hdb
  | destruct (updateRental_cases user id startDate endDate status notes db)
      as [(Hdb & Hcode)|(r & Hr & Hcode & Hdb)];
    rewrite Hdb
  | destruct (returnItem_cases user now id db)
      as [(Hdb & Hcode)|(r & item & Hr & Hst & Hitem & Hcode & Hdb)];
    rewrite Hdb
  | pose proof (getOverdueRentals_db user now db) as Hdb;
    rewrite Hdb
  | destruct (recordPayment_cases user now newId rentalId amount paymentMethod
                reference notes db)
      as [(Hdb & Hcode & Hcode')
         |(rid & amt & method & r & _ & _ & Hr & Hamt & Hfresh & Hcode & Hdb)];
    rewrite Hdb
  | destruct (deletePayment_cases user id db)
      as [(Hdb & Hcode)|(p & r & _ & Hp & Hr & Hcode & Hdb)];
    rewrite Hdb
  | destruct (createMaintenance_cases user now newId itemId description cost db)
      as [(Hdb & Hcode & Hcode')
         |(iid & desc & item & _ & _ & Hitem & Hfresh & Hcode & Hdb)];
    rewrite Hdb
  | destruct (updateMaintenance_cases user id description status cost db)
      as [(_ & Hdb & Hcode)|(m & Hm & Hcode & Hdb)];
    rewrite Hdb
  | destruct (completeMaintenance_cases user now id db)
      as [(Hdb & Hcode)|(m & item & Hm & Hst & Hitem & Hcode & Hdb)];
    rewrite Hdb
  | destruct (deleteMaintenance_cases id db)
      as [(_ & Hdb & Hcode)|(Hm & Hcode & Hdb)];
    rewrite Hdb
  | destruct (deleteCustomer_cases id db)
      as [(Hdb & Hcode)|(Hc & Hnone & Hcode & Hdb)];
    rewrite Hdb
  | destruct (deleteItem_cases id db)
      as [(Hdb & Hcode)|(Hi & Hnone & Hnone' & Hcode & Hdb)];
    rewrite Hdb
  | destruct (createCategory_cases newId name db)
      as [(Hdb & Hcode)|(n & _ & Hn & Hfresh & Hfree & Hcode & Hdb)];
    rewrite Hdb
  | destruct (updateCategory_cases id name db)
      as [Hdb|(n & _ & Hn & Hc & Hfree & Hcode & Hdb)];
    rewrite Hdb
  | destruct (deleteCategory_cases id db)
      as [(Hdb & Hcode)|(Hc & Hnone & Hcode & Hdb)];
    rewrite Hdb
  | destruct (createExpense_cases user now newId description amount category
                expenseDate db)
      as [(Hdb & Hcode & Hcode')
         |(desc & amt & cat & _ & _ & _ & _ & Hamt & Hfresh & Hcode & Hdb)];
    rewrite Hdb
  | destruct (updateExpense_cases user id description amount category expenseDate db)
      as [(Hdb & Hcode & Hcode')|(e & _ & He & Hcode & Hdb)];
    rewrite Hdb
  | destruct (deleteExpense_cases user id db)
      as [(Hdb & Hcode & Hcode')|(_ & He & Hcode & Hdb)];
    rewrite Hdb ].

(** ** Maintenance *)

(** X7.  A successful POST /maintenance stores a PENDING record whose cost
    is the submitted one for an ADMIN (0 when none is submitted) and 0 for
    anyone else, whatever was submitted; it puts the item in MAINTENANCE
    whatever its status was, keeps its quantity and rate, and touches no
    rental.  An unsuccessful one leaves the store as it is. *)
Theorem createMaintenance_effect user now newId itemId description cost db :
  let res := createMaintenance user now newId itemId description cost db in
  (Response.code res.2 ≠ 201 → res.1 = db) ∧
  (Response.code res.2 = 201 →
   ∃ iid item m,
     itemId = Some iid ∧ items db !! iid = Some item ∧
     maintenances db !! newId = None ∧
     maintenances res.1 !! newId = Some m ∧
     Maintenance.itemId m = iid ∧ Maintenance.status m = MAINT_PENDING ∧
     Maintenance.endDate m = None ∧
     Maintenance.cost m
     = (if decide (User.role user = ADMIN) then default 0 cost else 0) ∧
     items res.1 !! iid = Some (withStatus MAINTENANCE item) ∧
     rentals res.1 = rentals db).
Proof.
  intros res.
  destruct (createMaintenance_cases user now newId itemId description cost db)
    as [(Hdb & Hcode & _)|(iid & desc & item & -> & -> & Hitem & Hfresh & Hcode & Hdb)];
    fold res in Hdb, Hcode.
  - split; [done|]. intros Hok. by rewrite Hok in Hcode.
  - split; [by rewrite Hcode|]. intros _.
    exists iid, item, (newMaintenanceRow user now iid desc cost).
    rewrite Hdb. cbn [items maintenances rentals set_items set_maintenances].
    rewrite !lookup_insert_eq. done.
Qed.

Lemma createMaintenance_effect_witness :
  let res := createMaintenance staff date_2026_02_21 "m-2" (Some "i-drill")
               (Some "Noisy gearbox") (Some 75) db_rented in
  ∃ iid item m,
    Some "i-drill" = Some iid ∧ items db_rented !! iid = Some item ∧
    maintenances db_rented !! "m-2" = None ∧
    maintenances res.1 !! "m-2" = Some m ∧
    Maintenance.itemId m = iid ∧ Maintenance.status m = MAINT_PENDING ∧
    Maintenance.endDate m = None ∧
    Maintenance.cost m = 0 ∧
    items res.1 !! iid = Some (withStatus MAINTENANCE item) ∧
    rentals res.1 = rentals db_rented.
Proof.
  apply (proj2 (createMaintenance_effect staff date_2026_02_21 "m-2" (Some "i-drill")
                  (Some "Noisy gearbox") (Some 75) db_rented)).
  vm_compute. reflexivity.
Defined.

Lemma completeMaintenance_ok user now id db m item :
  maintenances db !! id = Some m → Maintenance.status m ≠ MAINT_COMPLETED →
  items db !! Maintenance.itemId m = Some item →
  let res := completeMaintenance user now id db in
  res.1 = set_items <[Maintenance.itemId m := ItemData.apply exitMaintenance item]>
            (set_maintenances <[id := completed now m]> db)
  ∧ Response.code res.2 = 200.
Proof.
  intros Hm Hst Hitem.
  destruct (completeMaintenance_cases user now id db)
    as [[_ Hcode]|(m' & item' & Hm' & _ & Hitem' & Hcode & Hdb)]; simplify_eq/=;
    [|done].
  exfalso. revert Hcode.
  unfold completeMaintenance, transaction, tx_bind, maintenance_findUnique, tx_gets.
  rewrite Hm. destruct (decide (Maintenance.status m = MAINT_COMPLETED)); [done|].
  unfold maintenance_update, item_update, tx_ret. rewrite Hm. cbn. rewrite Hitem.
  discriminate.
Qed.

(** X8.  A maintenance record that was just opened can be completed: the
    record becomes COMPLETED with endDate [now], the item becomes AVAILABLE
    whatever its status was before the maintenance (RENTED included) with
    its quantity as before, no rental is touched, and completing the record
    a second time fails and changes nothing. *)
Theorem maintenance_cycle user now newId iid description cost user' now' db item :
  items db !! iid = Some item →
  let opened := createMaintenance user now newId (Some iid) description cost db in
  Response.code opened.2 = 201 →
  let closed := completeMaintenance user' now' newId opened.1 in
  Response.code closed.2 = 200 ∧
  items closed.1 !! iid = Some (withStatus AVAILABLE item) ∧
  (∃ m, maintenances closed.1 !! newId = Some m ∧
        Maintenance.status m = MAINT_COMPLETED ∧ Maintenance.endDate m = Some now') ∧
  rentals closed.1 = rentals db ∧
  completeMaintenance user' now' newId closed.1
  = (closed.1, json_error 500 "Maintenance already completed").
Proof.
  intros Hitem opened Hok closed.
  destruct (createMaintenance_cases user now newId (Some iid) description cost db)
    as [(_ & Hcode & _)|(iid' & desc & item' & [= <-] & -> & Hitem' & Hfresh & _ & Hdb)];
    [done|].
  assert (item' = item) as -> by congruence. fold opened in Hdb.
  set (m := newMaintenanceRow user now iid desc cost) in Hdb.
  assert (Hm : maintenances opened.1 !! newId = Some m).
  { rewrite Hdb. cbn. apply lookup_insert_eq. }
  assert (Hi : items opened.1 !! iid = Some (ItemData.apply enterMaintenance item)).
  { rewrite Hdb. cbn. apply lookup_insert_eq. }
  destruct (completeMaintenance_ok user' now' newId opened.1 _ _ Hm ltac:(done) Hi)
    as [Hdb' Hcode].
  fold closed in Hdb', Hcode.
  assert (Hm2 : maintenances closed.1 !! newId = Some (completed now' m)).
  { rewrite Hdb'. cbn. apply lookup_insert_eq. }
  split_and!.
  - done.
  - rewrite Hdb'. cbn. by rewrite lookup_insert_eq.
  - eauto.
  - by rewrite Hdb', Hdb.
  - unfold completeMaintenance, transaction, tx_bind, maintenance_findUnique, tx_gets.
    rewrite Hm2. done.
Qed.

Lemma maintenance_cycle_witness :
  let opened := createMaintenance admin date_2026_02_20 "m-2" (Some "i-drill")
                  (Some "Noisy gearbox") (Some 75) db_rented in
  let closed := completeMaintenance staff date_2026_02_21 "m-2" opened.1 in
  Response.code closed.2 = 200 ∧
  items closed.1 !! "i-drill"
  = Some (withStatus AVAILABLE (ItemData.apply reserveUnit drill)) ∧
  (∃ m, maintenances closed.1 !! "m-2" = Some m ∧
        Maintenance.status m = MAINT_COMPLETED ∧
        Maintenance.endDate m = Some date_2026_02_21) ∧
  rentals closed.1 = rentals db_rented ∧
  completeMaintenance staff date_2026_02_21 "m-2" closed.1
  = (closed.1, json_error 500 "Maintenance already completed").
Proof.
  apply (maintenance_cycle admin date_2026_02_20 "m-2" "i-drill"
           (Some "Noisy gearbox") (Some 75) staff date_2026_02_21 db_rented
           (ItemData.apply reserveUnit drill)); vm_compute; reflexivity.
Defined.

(** X9.  PUT /maintenance/:id never touches an item or a rental, and never
    sets endDate: writing status COMPLETED through it does not release the
    item, unlike PUT /:id/complete.  It changes the cost only for an ADMIN;
    for anyone else the stored cost stays whatever cost is submitted.  On a
    missing record it answers 404 and changes nothing. *)
Theorem updateMaintenance_effect user id description status cost db :
  let res := updateMaintenance user id description status cost db in
  items res.1 = items db ∧ rentals res.1 = rentals db ∧
  match maintenances db !! id with
  | None => res.1 = db ∧ Response.code res.2 = 404
  | Some m =>
      ∃ m', maintenances res.1 !! id = Some m' ∧ Response.code res.2 = 200 ∧
        Maintenance.itemId m' = Maintenance.itemId m ∧
        Maintenance.endDate m' = Maintenance.endDate m ∧
        Maintenance.status m' = default (Maintenance.status m) status ∧
        Maintenance.cost m'
        = (if decide (User.role user = ADMIN)
           then default (Maintenance.cost m) cost else Maintenance.cost m)
  end.
Proof.
  intros res.
  destruct (updateMaintenance_cases user id description status cost db)
    as [(Hm & Hdb & Hcode)|(m & Hm & Hcode & Hdb)]; fold res in Hdb, Hcode;
    rewrite Hm, Hdb.
  - done.
  - split_and!; try done. eexists. cbn. rewrite lookup_insert_eq.
    split_and!; try done. cbn. by destruct (decide (User.role user = ADMIN)).
Qed.

(** ** Invariants of the store *)

(** X10.  A request that does not report success (200 or 201) leaves the
    whole store exactly as it was, for every writing request of the routers:
    validation errors, missing records, refused deletions and failed
    transactions commit nothing. *)
Theorem failure_is_atomic op db :
  let res := run op db in
  ¬ succeeded res.2 → res.1 = db.
Proof.
  intros res. subst res. unfold succeeded.
  run_cases op db; try done; intros Hfail; exfalso; apply Hfail;
    first [by left | by right].
Qed.

Lemma failure_is_atomic_witness :
  (run (DeleteCustomer "c-alice") db_rented).1 = db_rented.
Proof.
  apply (failure_is_atomic (DeleteCustomer "c-alice") db_rented).
  vm_compute. intros [|]; discriminate.
Defined.

(** X11.  No writing request makes an item's quantity negative: if every
    item has a quantity of at least 0, so it has after the request.  (A unit
    is reserved only when one is there; everything else keeps or raises the
    quantity or removes the item.) *)
Theorem stock_never_negative op db :
  stocked db → stocked (run op db).1.
Proof.
  unfold stocked. intros Hinv.
  run_cases op db; try done;
    cbn [items set_items set_rentals set_payments set_maintenances set_customers
         set_categories set_expenses]; try done.
  - apply map_Forall_insert_2; [cbn; lia|done].
  - apply map_Forall_insert_2; [|done]. cbn. specialize (Hinv _ _ Hitem). cbn in Hinv. lia.
  - apply map_Forall_insert_2; [|done]. exact (Hinv _ _ Hitem).
  - apply map_Forall_insert_2; [|done]. exact (Hinv _ _ Hitem).
  - by apply map_Forall_delete.
Qed.

Lemma stock_never_negative_witness :
  stocked (run
             (RentalRequest (ReturnItem staff date_2026_02_21 "r-2")) db_rented).1.
Proof.
  apply (stock_never_negative
           (RentalRequest (ReturnItem staff date_2026_02_21 "r-2")) db_rented).
  apply (bool_decide_unpack (stocked db_rented)). vm_compute. exact I.
Defined.

(** ** The payment ledger *)

Lemma sum_Permutation l l' : l ≡ₚ l' → sum l = sum l'.
Proof. unfold sum. induction 1; cbn in *; lia. Qed.




Lemma sum_nonneg l : Forall (λ x, 0 ≤ x) l → 0 ≤ sum l.
Proof. unfold sum. induction 1; cbn; lia. Qed.

Lemma paidFor_nonneg db rid :
  map_Forall (λ _ p, 0 < Payment.amount p ∧ is_Some (rentals db !! Payment.rentalId p))
             (payments db) →
  0 ≤ paidFor db rid.
Proof.
  intros Hpos. apply sum_nonneg, Forall_fmap, Forall_forall. intros [id p] Hin.
  apply list_elem_of_filter in Hin as [_ Hin]. apply elem_of_map_to_list in Hin.
  cbn. destruct (Hpos _ _ Hin). lia.
Qed.






(** X13.  In a consistent ledger a successful recordPayment never leaves the
    rental UNPAID (its new amountPaid is positive), and its amountPaid before
    the payment was not negative. *)
Theorem recordPayment_never_unpaid user now newId rentalId amount paymentMethod
    reference notes db :
  ledgerConsistent db →
  let res := recordPayment user now newId rentalId amount paymentMethod
               reference notes db in
  Response.code res.2 = 201 →
  ∃ rid r r', rentalId = Some rid ∧ rentals db !! rid = Some r ∧
    rentals res.1 !! rid = Some r' ∧
    0 ≤ Rental.amountPaid r ∧ 0 < Rental.amountPaid r' ∧
    (Rental.paymentStatus r' = PARTIAL ∨ Rental.paymentStatus r' = PAID).
Proof.
  intros [Hpaid Hpay] res Hok.
  destruct (recordPayment_cases user now newId rentalId amount paymentMethod
              reference notes db)
    as [(_ & Hcode & _)|(rid & amt & method & r & -> & -> & Hr & Hamt & _ & _ & Hdb)];
    [done|].
  fold res in Hdb. exists rid, r, (RentalData.apply
                     (paymentData r (Rental.amountPaid r + amt)) r).
  split; [done|]. split; [done|]. split.
  { rewrite Hdb. cbn. apply lookup_insert_eq. }
  assert (0 ≤ Rental.amountPaid r) as Hnn.
  { rewrite (Hpaid _ _ Hr). by apply paidFor_nonneg. }
  split; [done|]. split; [cbn; lia|]. cbn. unfold paymentStatusOf.
  destruct (_ <=? _); [by right|].
  destruct (Z.ltb_spec 0 (Rental.amountPaid r + amt)); [by left|lia].
Qed.

Lemma recordPayment_never_unpaid_witness :
  let res := recordPayment admin date_2026_02_21 "p-9" (Some "r-2") (Some 30)
               (Some CARD) None None db_rented in
  ∃ rid r r', Some "r-2" = Some rid ∧ rentals db_rented !! rid = Some r ∧
    rentals res.1 !! rid = Some r' ∧
    0 ≤ Rental.amountPaid r ∧ 0 < Rental.amountPaid r' ∧
    (Rental.paymentStatus r' = PARTIAL ∨ Rental.paymentStatus r' = PAID).
Proof.
  apply (recordPayment_never_unpaid admin date_2026_02_21 "p-9" (Some "r-2") (Some 30)
           (Some CARD) None None db_rented).
  - apply (bool_decide_unpack (ledgerConsistent db_rented)). vm_compute. exact I.
  - vm_compute. reflexivity.
Defined.

(** ** References between tables *)

(** X14.  No writing request leaves a dangling reference: if every rental
    names a stored customer and a stored item, every payment a stored
    rental, every maintenance record a stored item and every item a stored
    category, then the same holds after the request.  The creating handlers
    check the rows they refer to, and the deleting ones go through only when
    nothing refers to the row. *)
Theorem references_invariant op db :
  wellReferenced db → wellReferenced (run op db).1.
Proof.
  intros (Hrent & Hpay & Hmaint & Hitems).
  run_cases op db; try done;
    unfold wellReferenced;
    cbn [users categories items customers rentals payments expenses maintenances
         set_items set_rentals set_payments set_maintenances set_customers
         set_categories set_expenses swept];
    split_and!; try done.
  all: try match goal with
           | |- map_Forall _ (<[_:=_]> _) => apply map_Forall_insert_2; [cbn|]
           | |- map_Forall _ (delete _ _) => apply map_Forall_delete
           | |- map_Forall _ (_ <$> _) => apply map_Forall_fmap
           end.
  all: try (intros k x Hk; cbn;
            first [pose proof (Hrent _ _ Hk) as Hx | pose proof (Hpay _ _ Hk) as Hx
                  |pose proof (Hmaint _ _ Hk) as Hx | pose proof (Hitems _ _ Hk) as Hx];
            cbn in Hx; try case_decide; destruct_and?; split_and?).
  all: rewrite ?lookup_insert_is_Some', ?lookup_delete_is_Some, ?lookup_fmap,
         ?fmap_is_Some; auto.
  all: try (pose proof (Hrent _ _ Hr) as [? ?]; split_and?; by auto).
  all: try exact (Hitems _ _ Hitem).
  all: try exact (Hmaint _ _ Hm).
  all: split; [|done]; intros ->.
  all: first [by eapply (count_zero _ _ _ _ Hnone Hk)
             |by eapply (count_zero _ _ _ _ Hnone' Hk)].
Qed.

Lemma references_invariant_witness :
  wellReferenced (run (DeleteItem "i-drill") db0).1.
Proof.
  apply (references_invariant (DeleteItem "i-drill") db0).
  apply (bool_decide_unpack (wellReferenced db0)). vm_compute. exact I.
Defined.

(** ** Category names *)

Lemma nameTaken_free db except n k c :
  ¬ nameTaken db except n → categories db !! k = Some c → Some k ≠ except →
  Category.name c ≠ n.
Proof.
  unfold nameTaken, rows. intros Hfree Hk Hexc Hname. apply Hfree.
  intros Hnil.
  assert ((k, c) ∈ filter (λ row : string * Category.t,
                             Some row.1 ≠ except ∧ Category.name row.2 = n)
                          (map_to_list (categories db))) as Hin.
  { apply list_elem_of_filter. split; [done|]. by apply elem_of_map_to_list. }
  rewrite Hnil in Hin. by apply not_elem_of_nil in Hin.
Qed.

(** X15.  No writing request makes two categories share a name: if the
    names of the stored categories are pairwise different, they still are
    after the request.  (Creating and renaming go through the unique index
    on the name; a clash is answered with 400 and nothing is written.) *)
Theorem category_names_stay_unique op db :
  uniqueNames db → uniqueNames (run op db).1.
Proof.
  intros Hinv.
  run_cases op db; try done; try exact Hinv;
    unfold uniqueNames;
    cbn [categories set_items set_rentals set_payments set_maintenances
         set_customers set_categories set_expenses swept];
    try exact Hinv; intros id1 c1 H1 id2 c2 H2 Hname.
  - apply lookup_insert_Some in H1 as [[<- <-]|[? H1]];
      apply lookup_insert_Some in H2 as [[<- <-]|[? H2]]; try done.
    + by destruct (nameTaken_free _ _ _ _ _ Hfree H2).
    + by destruct (nameTaken_free _ _ _ _ _ Hfree H1).
    + by eapply Hinv.
  - apply lookup_insert_Some in H1 as [[<- <-]|[? H1]];
      apply lookup_insert_Some in H2 as [[<- <-]|[? H2]]; try done.
    + destruct (nameTaken_free _ _ _ _ _ Hfree H2); [congruence|done].
    + destruct (nameTaken_free _ _ _ _ _ Hfree H1); [congruence|done].
    + by eapply Hinv.
  - apply lookup_delete_Some in H1 as [? H1]. apply lookup_delete_Some in H2 as [? H2].
    by eapply Hinv.
Qed.

Lemma category_names_stay_unique_witness :
  uniqueNames (run (CreateCategory "c-2" (Some "Tools")) db0).1.
Proof.
  apply (category_names_stay_unique (CreateCategory "c-2" (Some "Tools")) db0).
  apply (bool_decide_unpack (uniqueNames db0)). vm_compute. exact I.
Defined.

(** ** Deleting rows that others refer to *)

(** X16.  A customer with a rental on record is never deleted, whatever the
    rental's status: the store stays as it is, and the answer is 400 exactly
    when one of the customer's rentals is PENDING or ACTIVE, otherwise 404
    when the customer is not stored and 500 when it is (the foreign key of
    the rental refuses the deletion). *)
Theorem deleteCustomer_with_rentals id db k r :
  rentals db !! k = Some r → Rental.customerId r = id →
  let res := deleteCustomer id db in
  let open :=
    map_Exists (λ _ r', Rental.customerId r' = id ∧ Rental.status r' ∈ [PENDING; ACTIVE])
               (rentals db) in
  res.1 = db ∧
  (open → res.2 = json_error 400 "Cannot delete customer with active rentals") ∧
  (¬ open → customers db !! id = None → res.2 = json_error 404 "Customer not found") ∧
  (¬ open → is_Some (customers db !! id) →
     res.2 = json_error 500 "Failed to delete customer").
Proof.
  intros Hr Hid res open. subst res. unfold deleteCustomer.
  destruct (decide (0 < _)%nat) as [Hopen|Hopen]; rewrite count_pos in Hopen.
  { split_and!; done. }
  unfold transaction, customer_delete.
  destruct (customers db !! id) as [c|] eqn:Hc.
  - destruct (decide (count _ _ = 0%nat)) as [Hzero|Hsome].
    { by destruct (count_zero _ _ _ _ Hzero Hr). }
    split_and!; done.
  - split_and!; done.
Qed.

Lemma deleteCustomer_with_rentals_witness :
  (deleteCustomer "c-alice" db1).1 = db1 ∧
  (deleteCustomer "c-alice" db1).2 = json_error 500 "Failed to delete customer".
Proof.
  destruct (deleteCustomer_with_rentals "c-alice" db1 "r-1" rental1)
    as (Hdb & _ & _ & Hcode); [reflexivity|reflexivity|].
  split; [exact Hdb|]. apply Hcode; [|by eexists].
  apply (bool_decide_unpack (¬ map_Exists _ _)). vm_compute. exact I.
Defined.

(** X17.  An item with a rental or a maintenance record on file is never
    deleted, whatever their status: the store stays as it is, and the
    answer is 400 exactly when one of the item's rentals is PENDING or
    ACTIVE, otherwise 404 when the item is not stored and 500 when it is
    (a foreign key refuses the deletion).  So an item that was ever rented
    or serviced stays, unless its maintenance records are deleted first. *)
Theorem deleteItem_with_history id db :
  map_Exists (λ _ r, Rental.itemId r = id) (rentals db)
  ∨ map_Exists (λ _ m, Maintenance.itemId m = id) (maintenances db) →
  let res := deleteItem id db in
  let open :=
    map_Exists (λ _ r', Rental.itemId r' = id ∧ Rental.status r' ∈ [PENDING; ACTIVE])
               (rentals db) in
  res.1 = db ∧
  (open → res.2 = json_error 400 "Cannot delete item with active rentals") ∧
  (¬ open → items db !! id = None → res.2 = json_error 404 "Item not found") ∧
  (¬ open → is_Some (items db !! id) → res.2 = json_error 500 "Failed to delete item").
Proof.
  intros Href res open. subst res. unfold deleteItem.
  destruct (decide (0 < _)%nat) as [Hopen|Hopen]; rewrite count_pos in Hopen.
  { split_and!; done. }
  unfold transaction, item_delete.
  destruct (items db !! id) as [c|] eqn:Hc; [|split_and!; done].
  destruct (decide (count (rentals db) _ = 0%nat)) as [Hrentals|]; [|split_and!; done].
  destruct (decide (count (maintenances db) _ = 0%nat)) as [Hmaintenances|];
    [|split_and!; done].
  exfalso. destruct Href as [(k & r & Hr & Hid)|(k & m & Hm & Hid)].
  - by destruct (count_zero _ _ _ _ Hrentals Hr).
  - by destruct (count_zero _ _ _ _ Hmaintenances Hm).
Qed.

Lemma deleteItem_with_history_witness :
  (deleteItem "i-drill" db_serviced).1 = db_serviced ∧
  (deleteItem "i-drill" db_serviced).2 = json_error 500 "Failed to delete item".
Proof.
  destruct (deleteItem_with_history "i-drill" db_serviced) as (Hdb & _ & _ & Hcode).
  { right. apply (bool_decide_unpack (map_Exists _ _)). vm_compute. exact I. }
  split; [exact Hdb|]. apply Hcode; [|by eexists].
  apply (bool_decide_unpack (¬ map_Exists _ _)). vm_compute. exact I.
Defined.

(** X18.  Deleting a category has three outcomes and never a 500: while an
    item belongs to the category the answer is 400 with the number of such
    items in the message and nothing changes; with no such item it is 404
    when the category is not stored, and otherwise 200 with exactly that
    category removed.  For a stored category the deletion goes through
    exactly when GET /:id lists no item for it. *)
Theorem deleteCategory_outcomes id db :
  let res := deleteCategory id db in
  let used := map_Exists (λ _ i, Item.categoryId i = id) (items db) in
  (used →
     res.1 = db ∧
     res.2 = json_error 400
               ("Cannot delete category with "
                +:+ pretty (count (items db) (λ i, Item.categoryId i = id))
                +:+ " item(s)")) ∧
  (¬ used → categories db !! id = None →
     res.1 = db ∧ res.2 = json_error 404 "Category not found") ∧
  (¬ used → is_Some (categories db !! id) →
     res.1 = set_categories (delete id) db ∧ Response.code res.2 = 200) ∧
  (is_Some (categories db !! id) →
     Response.code res.2 = 200
     ↔ elements (field "items" (Response.body (getCategory id db).2)) = []).
Proof.
  intros res used. subst res. unfold deleteCategory.
  destruct (decide (0 < _)%nat) as [Hused|Hused].
  - pose proof Hused as Hused'. rewrite count_pos in Hused'.
    split_and!; try done. intros [c Hc]. unfold getCategory. rewrite Hc. cbn.
    split; [done|]. intros Hnil%fmap_nil_inv. exfalso.
    unfold count in Hused. rewrite Hnil in Hused. cbn in Hused. lia.
  - pose proof Hused as Hused'. rewrite count_pos in Hused'.
    unfold transaction, category_delete.
    destruct (categories db !! id) as [c|] eqn:Hc.
    + rewrite decide_True by lia. split_and!; try done.
      intros _. unfold getCategory. rewrite Hc. cbn. split; [|done]. intros _.
      unfold count in Hused. by destruct (filter _ _); [|cbn in Hused; lia].
    + split_and!; done.
Qed.

Lemma deleteCategory_outcomes_witness :
  (deleteCategory "c-tools" db0).1 = db0 ∧
  (deleteCategory "c-tools" db0).2
  = json_error 400 "Cannot delete category with 1 item(s)".
Proof.
  destruct (deleteCategory_outcomes "c-tools" db0) as (Hused & _).
  apply Hused. apply (bool_decide_unpack (map_Exists _ _)). vm_compute. exact I.
Defined.

(** ** Returning a rental twice *)



(** ** Payments and expenses in the summary *)

Lemma sum_rows_insert {A} (m : gmap string A) k x (P : string * A → Prop)
    `{∀ row, Decision (P row)} (f : string * A → Z) :
  m !! k = None →
  sum (f <$> filter P (rows (<[k := x]> m)))
  = (if decide (P (k, x)) then f (k, x) else 0) + sum (f <$> filter P (rows m)).
Proof.
  intros Hfresh. unfold rows.
  rewrite (sum_Permutation _ (f <$> filter P ((k, x) :: map_to_list m))).
  - rewrite filter_cons. by destruct (decide (P (k, x))).
  - by rewrite (map_to_list_insert _ _ _ Hfresh).
Qed.

Lemma sum_rows_delete {A} (m : gmap string A) k y (P : string * A → Prop)
    `{∀ row, Decision (P row)} (f : string * A → Z) :
  m !! k = Some y →
  sum (f <$> filter P (rows m))
  = (if decide (P (k, y)) then f (k, y) else 0) + sum (f <$> filter P (rows (delete k m))).
Proof.
  intros Hk. rewrite <-(sum_rows_insert (delete k m) k y) by apply lookup_delete_eq.
  by rewrite insert_delete_id.
Qed.

Lemma sum_rows_replace {A} (m : gmap string A) k x y (P : string * A → Prop)
    `{∀ row, Decision (P row)} (f : string * A → Z) :
  m !! k = Some y →
  sum (f <$> filter P (rows (<[k := x]> m)))
  = sum (f <$> filter P (rows m))
    - (if decide (P (k, y)) then f (k, y) else 0)
    + (if decide (P (k, x)) then f (k, x) else 0).
Proof.
  intros Hk. rewrite (sum_rows_delete m k y) by done.
  rewrite <-insert_delete_eq, sum_rows_insert by apply lookup_delete_eq. lia.
Qed.

Lemma summary_admin user startDate endDate db :
  User.role user = ADMIN →
  summary user startDate endDate db
  = (db, json_ok (JObj
      [("totalRevenue", JNum (revenueIn startDate endDate db));
       ("totalExpenses", JNum (expensesIn startDate endDate db));
       ("netProfit",
        JNum (revenueIn startDate endDate db - expensesIn startDate endDate db));
       ("outstandingPayments", JNum (outstandingDue db));
       ("profitMargin",
        if 0 <? revenueIn startDate endDate db
        then JStr (toFixed2 ((revenueIn startDate endDate db
                              - expensesIn startDate endDate db) * 100)
                            (revenueIn startDate endDate db))
        else JNum 0)])).
Proof.
  intros Hrole. unfold summary, requireAdmin.
  rewrite decide_False by (by intros []). by rewrite !default_aggregate_sum.
Qed.






Lemma createExpense_expenses db newId x startDate endDate :
  expenses db !! newId = None →
  expensesIn startDate endDate (set_expenses <[newId := x]> db)
  = expensesIn startDate endDate db
    + (if decide (inPeriod startDate endDate (Expense.expenseDate x))
       then Expense.amount x else 0).
Proof.
  intros Hfresh. unfold expensesIn. cbn [expenses set_expenses].
  rewrite sum_rows_insert by done. cbn [snd]. lia.
Qed.

(** X21.  A created expense shows in the summary: after a successful
    POST /expenses the summary of any period has totalExpenses raised by the
    amount when the period contains the expense date (the given one, or the
    time of the request when none is given), netProfit lowered by the same,
    and totalRevenue and outstandingPayments as they were.  The amount may
    be negative: only 0 is refused. *)
Theorem expense_shows_in_summary user now newId description amount category
    expenseDate startDate endDate db :
  let res := createExpense user now newId description amount category
               expenseDate db in
  let before := Response.body (summary user startDate endDate db).2 in
  let after := Response.body (summary user startDate endDate res.1).2 in
  Response.code res.2 = 201 →
  ∃ revenue expenses due amt,
    let expenses' :=
      expenses + (if decide (inPeriod startDate endDate (default now expenseDate))
                  then amt else 0) in
    amount = Some amt ∧ amt ≠ 0 ∧
    field "totalRevenue" before = Some (JNum revenue) ∧
    field "totalExpenses" before = Some (JNum expenses) ∧
    field "outstandingPayments" before = Some (JNum due) ∧
    field "totalRevenue" after = Some (JNum revenue) ∧
    field "totalExpenses" after = Some (JNum expenses') ∧
    field "netProfit" after = Some (JNum (revenue - expenses')) ∧
    field "outstandingPayments" after = Some (JNum due).
Proof.
  intros res before after Hcode.
  destruct (createExpense_cases user now newId description amount category
              expenseDate db)
    as [(_ & Hcode' & _)|(desc & amt & cat & Hrole & -> & -> & -> & Hamt & Hfresh & _ & Hdb)];
    [done|].
  subst before after res. rewrite Hdb, !summary_admin by done.
  rewrite createExpense_expenses by done.
  exists (revenueIn startDate endDate db), (expensesIn startDate endDate db),
         (outstandingDue db), amt.
  change (revenueIn startDate endDate (set_expenses _ db))
    with (revenueIn startDate endDate db).
  change (outstandingDue (set_expenses _ db)) with (outstandingDue db).
  cbn [Expense.expenseDate Expense.amount].
  generalize (revenueIn startDate endDate db) (expensesIn startDate endDate db)
             (outstandingDue db).
  intros revenue expenses due. split_and!; done.
Qed.

Lemma expense_shows_in_summary_witness :
  field "netProfit"
    (Response.body
       (summary admin None None
          (createExpense admin date_2026_02_20 "e-1" (Some "Blades") (Some 30)
             (Some "OTHER") None db_paid).1).2)
  = Some (JNum 100).
Proof.
  destruct (expense_shows_in_summary admin date_2026_02_20 "e-1" (Some "Blades")
              (Some 30) (Some "OTHER") None None None db_paid)
    as (revenue & expenses & due & amt & Hamt & _ & Hrev & Hexp & _ & _ & _ & Hnet & _);
    [reflexivity|].
  assert (amt = 30) as -> by congruence.
  assert (revenue = 130) as -> by (vm_compute in Hrev; congruence).
  assert (expenses = 0) as -> by (vm_compute in Hexp; congruence).
  exact Hnet.
Defined.

(** ** Listings *)

Lemma asc_total {A} (key : A → Z) : Total (asc key).
Proof. intros a b. unfold asc. lia. Qed.

Lemma asc_transitive {A} (key : A → Z) : Transitive (asc key).
Proof. intros a b c. unfold asc. lia. Qed.

Lemma findMany_asc {A} (table : gmap string A) (P : A → Prop)
    `{∀ a, Decision (P a)} (key : A → Z) :
  let listed := findMany table P (asc key) in
  (∀ id a, (id, a) ∈ listed ↔ table !! id = Some a ∧ P a) ∧
  StronglySorted (asc key) listed ∧
  NoDup listed.*1.
Proof.
  unfold findMany, rows. split_and!.
  - intros id a. rewrite merge_sort_Permutation, list_elem_of_filter, elem_of_map_to_list.
    cbn. tauto.
  - apply StronglySorted_merge_sort; [apply asc_transitive|apply asc_total].
  - rewrite merge_sort_Permutation. eapply NoDup_fmap_fst.
    + intros k x y [_ Hx%elem_of_map_to_list]%list_elem_of_filter
        [_ Hy%elem_of_map_to_list]%list_elem_of_filter. congruence.
    + apply NoDup_filter, NoDup_map_to_list.
Qed.

(** X22.  GET /low-stock lists exactly the stored items whose quantity is at
    most the threshold and whose status is not RETIRED, each once, in order
    of ascending quantity; the threshold is 5 when the query gives none,
    gives one that does not parse, or gives 0.  The store is not changed. *)
Theorem lowStock_listing threshold db :
  let limit := match threshold with
               | Some t => if decide (t = 0) then 5 else t
               | None => 5
               end in
  let listed := lowStockItems threshold db in
  (∀ id i, (id, i) ∈ listed
           ↔ items db !! id = Some i ∧ Item.quantity i ≤ limit
             ∧ Item.status i ≠ RETIRED) ∧
  StronglySorted (λ a b, Item.quantity a.2 ≤ Item.quantity b.2) listed ∧
  NoDup listed.*1 ∧
  (field "id" <$> records (Response.body (getLowStock threshold db).2)
   = (λ row, Some (JStr row.1)) <$> listed) ∧
  (getLowStock threshold db).1 = db.
Proof.
  intros limit listed.
  assert (lowStockThreshold threshold = limit) as Hlimit.
  { subst limit. destruct threshold as [t|]; [|done]. cbn.
    destruct (decide (t = 0)) as [->|]; [done|]. by destruct t. }
  destruct (findMany_asc (items db)
              (λ i, Item.quantity i ≤ lowStockThreshold threshold ∧ Item.status i ≠ RETIRED)
              Item.quantity) as (Hin & Hsorted & Hnodup).
  fold (lowStockItems threshold db) in Hin, Hsorted, Hnodup. fold listed in Hin, Hsorted, Hnodup.
  split_and!; try done.
  - intros id i. rewrite Hin, Hlimit. tauto.
  - unfold getLowStock. fold listed. cbn [snd Response.body json_ok records].
    rewrite <-list_fmap_compose. by apply list_fmap_ext.
Qed.

(** X23.  GET /status/active lists exactly the stored rentals whose status
    is ACTIVE, each once, in order of ascending endDate, and does not change
    the store; unlike GET /status/overdue it marks nothing overdue. *)
Theorem getActiveRentals_listing user db :
  let res := getActiveRentals user db in
  ∃ listed : list (string * Rental.t),
    (∀ id r, (id, r) ∈ listed ↔ rentals db !! id = Some r ∧ Rental.status r = ACTIVE) ∧
    StronglySorted (λ a b, Rental.endDate a.2 ≤ Rental.endDate b.2) listed ∧
    NoDup listed.*1 ∧
    field "id" <$> records (Response.body res.2)
    = (λ row, Some (JStr row.1)) <$> listed ∧
    res.1 = db.
Proof.
  intros res.
  exists (findMany (rentals db) (λ r, Rental.status r = ACTIVE) (asc Rental.endDate)).
  destruct (findMany_asc (rentals db) (λ r, Rental.status r = ACTIVE) Rental.endDate)
    as (Hin & Hsorted & Hnodup).
  split_and!; try done.
  subst res. unfold getActiveRentals. cbn [snd Response.body json_ok records].
  rewrite <-list_fmap_compose. apply list_fmap_ext. intros _ [id r] _.
  unfold forRole. by destruct (decide _).
Qed.

(** ** The web client *)



(** X25.  The home page never sends a user where ProtectedRoute turns them
    away: it pushes /login exactly when nobody is signed in, /admin/dashboard
    only to a user whom an administrator-only route shows its content, and
    /staff/dashboard otherwise, to a user whom an ordinary protected route
    shows its content. *)
Theorem HomePage_destination s :
  (HomePage_push s = "/login" ↔ isAuthenticated s = false) ∧
  (HomePage_push s = "/admin/dashboard" ↔ ProtectedRoute_render true s = Children) ∧
  (HomePage_push s = "/staff/dashboard"
   ↔ ProtectedRoute_render false s = Children ∧ isAdmin s = false) ∧
  (HomePage_push s = "/login" ∨ HomePage_push s = "/admin/dashboard"
   ∨ HomePage_push s = "/staff/dashboard").
Proof.
  unfold HomePage_push, ProtectedRoute_render, isAdmin.
  destruct (isAuthenticated s); cbn;
    destruct (bool_decide (User.role <$> AuthState.user s = Some ADMIN)); cbn;
    split_and!; try (split; [done|]); try done; try (by intros []); auto.
Qed.

(** ** One rental at a time *)

(** X26.  While an item is out on a rental made by POST /rentals, no second
    rental of it can be made, however many units are left: the first request
    leaves the item RENTED, and every further POST /rentals that names the
    item is answered with 400 and changes nothing. *)
Theorem createRental_blocks_item user now newId customerId iid startDate endDate
    deposit discount notes db
    user' now' newId' customerId' startDate' endDate' deposit' discount' notes' :
  let first := createRental user now newId customerId (Some iid) startDate endDate
                 deposit discount notes db in
  let second := createRental user' now' newId' customerId' (Some iid) startDate'
                  endDate' deposit' discount' notes' first.1 in
  Response.code first.2 = 201 →
  Item.status <$> items first.1 !! iid = Some RENTED ∧
  second.1 = first.1 ∧ Response.code second.2 = 400.
Proof.
  intros first second Hcode.
  destruct (createRental_cases user now newId customerId (Some iid) startDate endDate
              deposit discount notes db)
    as [(_ & Hcode' & _)
       |(cid & iid' & start & end_ & item & _ & [= <-] & _ & _ & Hitem & _ & _ & _ & _ & Hdb)];
    [done|].
  assert (items first.1 !! iid = Some (ItemData.apply reserveUnit item)) as Hitem'.
  { subst first. rewrite Hdb. cbn. by rewrite lookup_insert_eq. }
  split; [by rewrite Hitem'|].
  subst second. unfold createRental.
  destruct customerId' as [cid'|], startDate' as [start'|], endDate' as [end'|];
    try done.
  destruct (negb _); [done|]. destruct (end' <=? start'); [done|].
  by rewrite Hitem'.
Qed.

Lemma createRental_blocks_item_witness :
  (createRental admin date_2026_02_20 "r-9" (Some "c-alice") (Some "i-drill")
     (Some date_2026_02_20) (Some date_2026_02_21) None None None db_rented).1
  = db_rented.
Proof.
  destruct (createRental_blocks_item staff date_2026_02_14 "r-2" (Some "c-alice")
              "i-drill" (Some date_2026_02_14) (Some date_2026_02_20) (Some 50)
              (Some 10) None db0
              admin date_2026_02_20 "r-9" (Some "c-alice") (Some date_2026_02_20)
              (Some date_2026_02_21) None None None)
    as (_ & Hdb & _); [reflexivity|].
  exact Hdb.
Defined.

(** ** Extending a rental that is paid *)

(** X27.  PUT /rentals/:id never touches paymentStatus or amountPaid: when
    it changes the dates it recomputes amountDue from the stored daily rate,
    deposit, discount and amountPaid, and leaves the status as it was.  So a
    rental that is PAID stays PAID when an extension makes an amount due
    again, and the summary's outstandingPayments, which counts UNPAID and
    PARTIAL rentals only, does not move. *)
Theorem updateRental_stale_paymentStatus user id startDate endDate status notes db r :
  let res := updateRental user id startDate endDate status notes db in
  rentals db !! id = Some r → Response.code res.2 = 200 →
  ∃ r', rentals res.1 !! id = Some r' ∧
        Rental.paymentStatus r' = Rental.paymentStatus r ∧
        Rental.amountPaid r' = Rental.amountPaid r ∧
        (is_Some startDate ∨ is_Some endDate →
           Rental.amountDue r'
           = Rental.dailyRate r
               * ceil_div (default (Rental.endDate r) endDate
                           - default (Rental.startDate r) startDate) MS_PER_DAY
             + Rental.deposit r - Rental.discount r - Rental.amountPaid r) ∧
        (¬ outstanding r → outstandingDue res.1 = outstandingDue db).
Proof.
  intros res Hr Hcode.
  destruct (updateRental_cases user id startDate endDate status notes db)
    as [[_ Hcode']|(r' & Hr' & _ & Hdb)]; [done|].
  assert (r' = r) as -> by congruence. subst res. rewrite Hdb.
  eexists. split; [cbn; by rewrite lookup_insert_eq|].
  split_and!; try done.
  - intros Hdates. unfold updateRentalData.
    rewrite bool_decide_true by done. reflexivity.
  - intros Hout. unfold outstandingDue. cbn [rentals set_rentals].
    rewrite (sum_rows_replace _ _ _ r) by done. cbn [snd].
    rewrite !decide_False; [lia|done..].
Qed.

Lemma updateRental_stale_paymentStatus_witness :
  ∃ r', rentals db_extended !! "r-2" = Some r' ∧
        Rental.paymentStatus r' = PAID ∧ Rental.amountDue r' = 15 ∧
        outstandingDue db_extended = 0.
Proof.
  destruct (updateRental_stale_paymentStatus staff "r-2" None (Some date_2026_02_21)
              None None db_paid
              (RentalData.apply
                 (paymentData
                    (newRentalRow staff date_2026_02_14 "c-alice" "i-drill"
                       date_2026_02_14 date_2026_02_20 (Some 50) (Some 10) None drill)
                    130)
                 (newRentalRow staff date_2026_02_14 "c-alice" "i-drill"
                    date_2026_02_14 date_2026_02_20 (Some 50) (Some 10) None drill)))
    as (r' & Hr' & Hstatus & _ & Hdue & Hout); [reflexivity|reflexivity|].
  exists r'. split; [exact Hr'|]. split; [exact Hstatus|].
  split; [rewrite Hdue by (right; by eexists); reflexivity|].
  change db_extended
    with (updateRental staff "r-2" None (Some date_2026_02_21) None None db_paid).1.
  rewrite Hout; [reflexivity|]. cbn. intros Hin.
  apply (bool_decide_unpack (PAID ∉ [UNPAID; PARTIAL])); [|exact Hin].
  vm_compute. exact I.
Defined.

(** ** The staff dashboard *)

Lemma count_insert {A} (m : gmap string A) k x (P : A → Prop) `{∀ a, Decision (P a)} :
  m !! k = None →
  count (<[k := x]> m) P = ((if decide (P x) then 1 else 0) + count m P)%nat.
Proof.
  intros Hfresh. unfold count, rows.
  rewrite (Permutation_length
             (l' := filter (λ row, P row.2) ((k, x) :: map_to_list m))).
  - rewrite filter_cons. cbn [snd]. by destruct (decide (P x)).
  - by rewrite (map_to_list_insert _ _ _ Hfresh).
Qed.

Lemma count_replace {A} (m : gmap string A) k x y (P : A → Prop)
    `{∀ a, Decision (P a)} :
  m !! k = Some y →
  (count (<[k := x]> m) P + (if decide (P y) then 1 else 0)
   = count m P + (if decide (P x) then 1 else 0))%nat.
Proof.
  intros Hk.
  pose proof (count_insert (delete k m) k x P (lookup_delete_eq m k)) as Hx.
  pose proof (count_insert (delete k m) k y P (lookup_delete_eq m k)) as Hy.
  rewrite insert_delete_eq in Hx. rewrite insert_delete_id in Hy by done. lia.
Qed.

(** X28.  What a new rental does to the staff dashboard: after a successful
    POST /rentals the number of items is as before, availableItems is one
    lower (the item was AVAILABLE and is now RENTED), maintenanceItems is
    unchanged, and activeRentals is unchanged too, because the rental is
    stored as PENDING. *)
Theorem staffDashboard_after_createRental user now newId customerId itemId
    startDate endDate deposit discount notes db :
  let res := createRental user now newId customerId itemId startDate endDate
               deposit discount notes db in
  let before := Response.body (getStaffDashboard db).2 in
  let after := Response.body (getStaffDashboard res.1).2 in
  Response.code res.2 = 201 →
  ∃ total available active maintenance,
    field "totalItems" before = Some (JNum total) ∧
    field "availableItems" before = Some (JNum available) ∧
    field "activeRentals" before = Some (JNum active) ∧
    field "maintenanceItems" before = Some (JNum maintenance) ∧
    field "totalItems" after = Some (JNum total) ∧
    field "availableItems" after = Some (JNum (available - 1)) ∧
    field "activeRentals" after = Some (JNum active) ∧
    field "maintenanceItems" after = Some (JNum maintenance).
Proof.
  intros res before after Hcode.
  destruct (createRental_success user now newId customerId itemId startDate endDate
              deposit discount notes db Hcode)
    as (cid & iid & start & end_ & item & _ & _ & _ & _ & _ & Hitem & Hst & _ & _
        & Hfresh & Hdb).
  subst before after res. rewrite Hdb. unfold getStaffDashboard.
  cbn [snd Response.body json_ok items rentals set_items set_rentals].
  pose proof (count_replace (items db) iid (ItemData.apply reserveUnit item) item
                (λ _, True) Hitem) as Htotal.
  pose proof (count_replace (items db) iid (ItemData.apply reserveUnit item) item
                (λ i, Item.status i = AVAILABLE) Hitem) as Havailable.
  pose proof (count_replace (items db) iid (ItemData.apply reserveUnit item) item
                (λ i, Item.status i = MAINTENANCE) Hitem) as Hmaintenance.
  pose proof (count_insert (rentals db) newId
                (newRentalRow user now cid iid start end_ deposit discount notes item)
                (λ r, Rental.status r = ACTIVE) Hfresh) as Hactive.
  cbn in Htotal, Havailable, Hmaintenance, Hactive. rewrite Hst in *.
  rewrite !decide_True in * by done. rewrite !decide_False in * by done.
  assert (Z.of_nat (count (<[iid := ItemData.apply reserveUnit item]> (items db))
                      (λ _, True))
          = Z.of_nat (count (items db) (λ _, True))) as -> by lia.
  assert (Z.of_nat (count (<[iid := ItemData.apply reserveUnit item]> (items db))
                      (λ i, Item.status i = AVAILABLE))
          = Z.of_nat (count (items db) (λ i, Item.status i = AVAILABLE)) - 1)
    as -> by lia.
  assert (Z.of_nat (count (<[iid := ItemData.apply reserveUnit item]> (items db))
                      (λ i, Item.status i = MAINTENANCE))
          = Z.of_nat (count (items db) (λ i, Item.status i = MAINTENANCE)))
    as -> by lia.
  rewrite Hactive.
  eexists _, _, _, _. split_and!; reflexivity.
Qed.

Lemma staffDashboard_after_createRental_witness :
  field "availableItems" (Response.body (getStaffDashboard db_rented).2)
  = Some (JNum 0).
Proof.
  destruct (staffDashboard_after_createRental staff date_2026_02_14 "r-2"
              (Some "c-alice") (Some "i-drill") (Some date_2026_02_14)
              (Some date_2026_02_20) (Some 50) (Some 10) None db0)
    as (total & available & active & maintenance & _ & Hbefore & _ & _ & _ & Hafter & _);
    [reflexivity|].
  assert (available = 1) as -> by (vm_compute in Hbefore; congruence).
  exact Hafter.
Defined.
